(** * air-submit: the AIR command-line client, embedded and verified

    A shallow embedding of [air-submit.py]: the values the tool reads from
    the review service, its output and network effects as an explicit
    trace, and the control flow of [submit_review], [get_review_status],
    [format_status_line], [print_reviews] and [main]. *)

From Stdlib Require Import String Ascii List ZArith Bool Lia Arith.
From Stdlib Require Import DecimalString.
Import ListNotations.

Set Warnings "-register-all".

Local Open Scope string_scope.
Local Open Scope Z_scope.

(** ** Python values

    What [response.json()] can return.  A float is kept by what the
    program can observe of it: whether it is positive, negative, zero or
    not a number, and the text [str] gives for it.  An object keeps the
    insertion order of its keys, which [repr] shows.  A character of a
    string is one [ascii] (code points below 256). *)

Inductive float_class : Type := FPositive | FNegative | FZero | FNaN.

Inductive value : Type :=
| JNull
| JBool (b : bool)
| JInt (z : Z)
| JFloat (class : float_class) (text : string)
| JStr (s : string)
| JList (l : list value)
| JObj (d : list (string * value)).

Module Py.

Definition nl : string := String "010" "".
Definition cr : string := String "013" "".
Definition esc : string := String "027" "".
Definition dquote : ascii := "034"%char.

(** [bool(v)] *)
Definition truthy (v : value) : bool :=
  match v with
  | JNull => false
  | JBool b => b
  | JInt z => negb (z =? 0)
  | JFloat class _ => match class with FZero => false | _ => true end
  | JStr s => negb (String.eqb s "")
  | JList l => match l with [] => false | _ => true end
  | JObj d => match d with [] => false | _ => true end
  end.

(** [v == s] for a string literal [s] *)
Definition eq_str (v : value) (s : string) : bool :=
  match v with
  | JStr t => String.eqb t s
  | _ => false
  end.

(** [str(n)] for an int *)
Definition str_int (z : Z) : string := NilZero.string_of_int (Z.to_int z).

Definition hex_digit (n : nat) : ascii :=
  match n with
  | 0 => "0" | 1 => "1" | 2 => "2" | 3 => "3" | 4 => "4" | 5 => "5"
  | 6 => "6" | 7 => "7" | 8 => "8" | 9 => "9" | 10 => "a" | 11 => "b"
  | 12 => "c" | 13 => "d" | 14 => "e" | _ => "f"
  end%char%nat.

(** a character [repr] writes as it is: printable ASCII and the printable
    part of Latin-1 *)
Definition printable (c : ascii) : bool :=
  let n := nat_of_ascii c in
  ((32 <=? n) && (n <? 127) || (161 <=? n) && negb (n =? 173))%nat.

Definition repr_char (quote : ascii) (c : ascii) : string :=
  if Ascii.eqb c "\" then "\\"
  else if Ascii.eqb c quote then String "\" (String quote "")
  else if Ascii.eqb c "010" then "\n"
  else if Ascii.eqb c "013" then "\r"
  else if Ascii.eqb c "009" then "\t"
  else if printable c then String c ""
  else let n := nat_of_ascii c in
       String "\" (String "x" (String (hex_digit (n / 16))
                                 (String (hex_digit (n mod 16)) ""))).

Fixpoint has_char (c : ascii) (s : string) : bool :=
  match s with
  | EmptyString => false
  | String a r => Ascii.eqb a c || has_char c r
  end.

Fixpoint repr_body (quote : ascii) (s : string) : string :=
  match s with
  | EmptyString => ""
  | String a r => repr_char quote a ++ repr_body quote r
  end.

(** [repr(s)] for a str: single quotes unless the text has a single and
    no double quote *)
Definition repr_str (s : string) : string :=
  let quote : ascii :=
    if has_char "'" s && negb (has_char dquote s) then dquote else "'"%char in
  String quote (repr_body quote s ++ String quote "").

Fixpoint join (sep : string) (l : list string) : string :=
  match l with
  | [] => ""
  | [x] => x
  | x :: r => x ++ sep ++ join sep r
  end.

(** [repr(v)] *)
Fixpoint repr (v : value) : string :=
  match v with
  | JNull => "None"
  | JBool true => "True"
  | JBool false => "False"
  | JInt z => str_int z
  | JFloat _ text => text
  | JStr s => repr_str s
  | JList l => "[" ++ join ", " (map repr l) ++ "]"
  | JObj d =>
      "{" ++ join ", " (map (fun kv => repr_str (fst kv) ++ ": " ++ repr (snd kv)) d)
          ++ "}"
  end.

(** [str(v)], what an f-string and [print] show *)
Definition str (v : value) : string :=
  match v with
  | JStr s => s
  | _ => repr v
  end.

(** [s.rstrip('/')] *)
Fixpoint rstrip_slash (s : string) : string :=
  match s with
  | EmptyString => ""
  | String a r =>
      match rstrip_slash r with
      | EmptyString => if Ascii.eqb a "/" then "" else String a ""
      | r' => String a r'
      end
  end.

(** [c * n] for a one-character string *)
Fixpoint times (c : ascii) (n : nat) : string :=
  match n with
  | O => ""
  | S k => String c (times c k)
  end.

(** [d.get(k)] on the items of a dict *)
Fixpoint lookup (k : string) (d : list (string * value)) : option value :=
  match d with
  | [] => None
  | (k', v) :: r => if String.eqb k' k then Some v else lookup k r
  end.

(** [needle in hay] for two strs *)
Fixpoint prefix_of (p s : string) : bool :=
  match p, s with
  | EmptyString, _ => true
  | String a p', String b s' => Ascii.eqb a b && prefix_of p' s'
  | String _ _, EmptyString => false
  end.

Fixpoint contains (needle hay : string) : bool :=
  prefix_of needle hay ||
  match hay with
  | EmptyString => false
  | String _ r => contains needle r
  end.

End Py.

(** ** Effects

    The run of the tool is observed as the list of things it does, in
    order: what it writes, the HTTP requests it issues, the files it opens
    and its sleeps. *)

Inductive event : Type :=
| Out (text : string)                          (* written to stdout *)
| ErrOut (text : string)                       (* written to stderr *)
| Usage (msg : string)                         (* argparse's usage report on stderr *)
| ReadFile (path : string)
| Post (url : string) (json : value)
| Get (url : string) (params : list (string * value))
| Sleep (secs : Z).

Inductive exn : Type :=
| KeyError (key : string)
| TypeError
| AttributeError
| ValueError
| OverflowError
| OSError
| KeyboardInterrupt.

(** How a computation ends: with a value, by [sys.exit], with an exception
    on its way up, or (the model only) with the loop's fuel used up. *)
Inductive res (A : Type) : Type :=
| Ok (a : A)
| Exit (code : Z)
| Raise (e : exn)
| OutOfFuel.

Arguments Ok {A} a.
Arguments Exit {A} code.
Arguments Raise {A} e.
Arguments OutOfFuel {A}.

(** What the [requests] call gives back.  [Failed] is any
    [requests.exceptions.RequestException] (connection, timeout, the HTTP
    error of [raise_for_status], and the JSON error of the versions of
    requests whose JSONDecodeError derives from it); [NotJson] is a
    [json.JSONDecodeError] that is not one; [Interrupt] is Ctrl-C while the
    call blocks. *)
Inductive reply : Type :=
| Body (data : value)
| NotJson (msg : string)
| Failed (msg : string)
| Interrupt.

Inductive file_reply : Type :=
| Content (text : string)
| NotFound
| Unreadable (msg : string).

(** How a sleep that the system was asked for ends: it lasts, Ctrl-C ends
    it, or it is refused with an exception (an OSError of the system call,
    as for the durations next to the largest one). *)
Inductive nap : Type := Slept | Woken | Refused (e : exn).

(** The surroundings of one run: whether stdout is a terminal, the file
    system, the answer to the n-th HTTP call and the end of the n-th
    sleep.  Ctrl-C reaches the process where it blocks, in an HTTP call or
    in a sleep. *)
Record World : Type := {
  tty : bool;
  files : string -> file_reply;
  net : nat -> reply;
  naps : nat -> nap
}.

Record Tick : Type := { calls : nat; slept : nat }.

Definition start : Tick := {| calls := 0; slept := 0 |}.

(** the clock after one more HTTP call, after one more sleep *)
Definition called (t : Tick) : Tick := {| calls := S (calls t); slept := slept t |}.
Definition napped (t : Tick) : Tick := {| calls := calls t; slept := S (slept t) |}.

Definition M (A : Type) : Type := World -> Tick -> res A * list event * Tick.

Definition ret {A} (a : A) : M A := fun _ t => (Ok a, [], t).

Definition bind {A B} (m : M A) (k : A -> M B) : M B :=
  fun w t =>
    match m w t with
    | (Ok a, ev, t') => let '(r, ev', t'') := k a w t' in (r, (ev ++ ev')%list, t'')
    | (Exit c, ev, t') => (Exit c, ev, t')
    | (Raise e, ev, t') => (Raise e, ev, t')
    | (OutOfFuel, ev, t') => (OutOfFuel, ev, t')
    end.

Declare Scope py_scope.
Delimit Scope py_scope with py.
Notation "x <- m ;; k" := (bind m (fun x => k))
  (at level 61, m at next level, right associativity) : py_scope.
Notation "m ;; k" := (bind m (fun _ => k))
  (at level 61, right associativity) : py_scope.
Local Open Scope py_scope.

Definition emit (e : event) : M unit := fun _ t => (Ok tt, [e], t).
Definition sys_exit {A} (code : Z) : M A := fun _ t => (Exit code, [], t).
Definition raise {A} (e : exn) : M A := fun _ t => (Raise e, [], t).
Definition out_of_fuel {A} : M A := fun _ t => (OutOfFuel, [], t).

(** [print(text)] and [print(text, file=sys.stderr)] *)
Definition print (text : string) : M unit := emit (Out (text ++ Py.nl)).
Definition eprint (text : string) : M unit := emit (ErrOut (text ++ Py.nl)).

(** [sys.stdout.isatty()] *)
Definition isatty : M bool := fun w t => (Ok (tty w), [], t).

(** [parser.error(msg)]: usage and message on stderr, exit status 2 *)
Definition parser_error {A} (msg : string) : M A := emit (Usage msg) ;; sys_exit 2.

(** one HTTP call: the request goes out, the world answers *)
Definition request (e : event) : M reply :=
  fun w t => (Ok (net w (calls t)), [e], called t).

(** [open(path).read()] *)
Definition read_file (path : string) : M file_reply :=
  fun w t => (Ok (files w path), [ReadFile path], t).

(** the longest duration, in seconds, that fits the 64-bit count of
    nanoseconds [time.sleep] converts its argument to *)
Definition max_sleep : Z := 9223372036.

(** [time.sleep(secs)] for an int: a duration that does not fit is an
    OverflowError, whatever its sign; one that fits and is negative is a
    ValueError; for the others the system is asked to sleep *)
Definition sleep (secs : Z) : M unit :=
  if (secs <? - max_sleep) || (max_sleep <? secs) then raise OverflowError
  else if secs <? 0 then raise ValueError
  else fun w t =>
         (match naps w (slept t) with
          | Slept => Ok tt
          | Woken => Raise KeyboardInterrupt
          | Refused e => Raise e
          end,
          [Sleep secs], napped t).

(** [try: body except KeyboardInterrupt: handler] *)
Definition except_KeyboardInterrupt {A} (body handler : M A) : M A :=
  fun w t =>
    match body w t with
    | (Raise KeyboardInterrupt, ev, t') =>
        let '(r, ev', t'') := handler w t' in (r, (ev ++ ev')%list, t'')
    | other => other
    end.

(** [v[key]] *)
Definition subscript (v : value) (key : string) : M value :=
  match v with
  | JObj d => match Py.lookup key d with
              | Some x => ret x
              | None => raise (KeyError key)
              end
  | _ => raise TypeError
  end.

(** [v.get(key, default)] *)
Definition get (v : value) (key : string) (default : value) : M value :=
  match v with
  | JObj d => match Py.lookup key d with
              | Some x => ret x
              | None => ret default
              end
  | _ => raise AttributeError
  end.

(** [v > 0] *)
Definition gt0 (v : value) : M bool :=
  match v with
  | JInt z => ret (0 <? z)
  | JFloat class _ => ret (match class with FPositive => true | _ => false end)
  | JBool b => ret b
  | _ => raise TypeError
  end.

(** [iter(v)]: the items a [for] loop visits, when [v] is iterable *)
Definition items_of (v : value) : option (list value) :=
  match v with
  | JList l => Some l
  | JStr s => Some (map (fun c => JStr (String c "")) (list_ascii_of_string s))
  | JObj d => Some (map (fun kv => JStr (fst kv)) d)
  | _ => None
  end.

Definition iterate (v : value) : M (list value) :=
  match items_of v with
  | Some items => ret items
  | None => raise TypeError
  end.

(** [if s:] for an [Optional[str]] and an [Optional[int]] *)
Definition given (o : option string) : bool :=
  match o with
  | Some s => negb (String.eqb s "")
  | None => false
  end.

Definition given_int (o : option Z) : bool :=
  match o with
  | Some z => negb (z =? 0)
  | None => false
  end.

Definition given_list {A} (o : option (list A)) : bool :=
  match o with
  | Some (_ :: _) => true
  | _ => false
  end.

(** ** The program *)

Module Colors.
Definition RESET : string := Py.esc ++ "[0m".
Definition RED : string := Py.esc ++ "[91m".
Definition GREEN : string := Py.esc ++ "[92m".
Definition YELLOW : string := Py.esc ++ "[93m".
Definition BLUE : string := Py.esc ++ "[94m".
Definition CYAN : string := Py.esc ++ "[96m".
Definition BOLD : string := Py.esc ++ "[1m".
End Colors.

Definition colorize (text color : string) : M string :=
  interactive <- isatty ;;
  if interactive then ret (color ++ text ++ Colors.RESET) else ret text.

Fixpoint read_patch_files (patch_files : list string) : M (list string) :=
  match patch_files with
  | [] => ret []
  | path :: rest =>
      f <- read_file path ;;
      match f with
      | Content text =>
          patches <- read_patch_files rest ;;
          ret (text :: patches)
      | NotFound =>
          eprint ("Error: Patch file not found: " ++ path) ;; sys_exit 1
      | Unreadable e =>
          eprint ("Error reading patch file " ++ path ++ ": " ++ e) ;; sys_exit 1
      end
  end.

Definition api_url (url : string) : string := Py.rstrip_slash url ++ "/api/review".

Definition submit_review (url token tree : string) (branch : option string)
    (patches : option (list string)) (patchwork_series_id : option Z) : M value :=
  let payload := [("token", JStr token); ("tree", JStr tree)] in
  payload <-
    (if given_list patches then
       ret (payload ++ [("patches", JList (map JStr (match patches with
                                                     | Some l => l
                                                     | None => []
                                                     end)))])%list
     else if given_int patchwork_series_id then
       ret (payload ++ [("patchwork_series_id", JInt (match patchwork_series_id with
                                                      | Some z => z
                                                      | None => 0
                                                      end))])%list
     else
       eprint "Error: Either patches or patchwork_series_id must be provided" ;;
       sys_exit 1) ;;
  let payload :=
    if given branch
    then (payload ++ [("branch", JStr (match branch with Some b => b | None => "" end))])%list
    else payload in
  response <- request (Post (api_url url) (JObj payload)) ;;
  match response with
  | Interrupt => raise KeyboardInterrupt
  | Failed e => eprint ("Error submitting review: " ++ e) ;; sys_exit 1
  | NotJson e => eprint ("Error parsing response: " ++ e) ;; sys_exit 1
  | Body (JObj data) =>
      match Py.lookup "review_id" data with
      | Some review_id => ret review_id
      | None => eprint ("Error parsing response: " ++ Py.repr_str "review_id") ;; sys_exit 1
      end
  | Body _ => raise TypeError
  end.

(** the [params] of [get_review_status] *)
Definition query (token : string) (review_id : value) (fmt : option string)
  : list (string * value) :=
  let params := [("id", review_id); ("token", JStr token)] in
  if given fmt
  then (params ++ [("format", JStr (match fmt with Some f => f | None => "" end))])%list
  else params.

Definition get_review_status (url token : string) (review_id : value)
    (fmt : option string) : M value :=
  response <- request (Get (api_url url) (query token review_id fmt)) ;;
  match response with
  | Interrupt => raise KeyboardInterrupt
  | Failed e => eprint ("Error querying review status: " ++ e) ;; sys_exit 1
  | NotJson e => eprint ("Error parsing response: " ++ e) ;; sys_exit 1
  | Body data => ret data
  end.

Definition format_status_line (status : value) : M string :=
  state <- subscript status "status" ;;
  patch_count <- get status "patch_count" (JInt 0) ;;
  completed <- get status "completed_patches" (JInt 0) ;;
  if Py.eq_str state "queued" then
    queue_len <- get status "queue-len" (JStr "?") ;;
    c <- colorize "queued" Colors.CYAN ;;
    ret ("Status: " ++ c ++ " (patches ahead: " ++ Py.str queue_len ++ ")")
  else if Py.eq_str state "in-progress" then
    some <- gt0 patch_count ;;
    if some then
      let progress := Py.str completed ++ "/" ++ Py.str patch_count in
      c <- colorize "in-progress" Colors.YELLOW ;;
      ret ("Status: " ++ c ++ " (" ++ progress ++ " patches completed)")
    else
      c <- colorize "in-progress" Colors.YELLOW ;;
      ret ("Status: " ++ c ++ " (setting up...)")
  else if Py.eq_str state "done" then
    c <- colorize "done" (Colors.GREEN ++ Colors.BOLD) ;;
    ret ("Status: " ++ c ++ " (" ++ Py.str patch_count ++ " patches reviewed)")
  else if Py.eq_str state "error" then
    msg <- get status "message" (JStr "unknown error") ;;
    c <- colorize "error" (Colors.RED ++ Colors.BOLD) ;;
    ret ("Status: " ++ c ++ " - " ++ Py.str msg)
  else
    ret ("Status: " ++ Py.str state).

Definition separator : string := Py.times "=" 80.

(** the body of the loop of [print_reviews]: the section of entry [i] *)
Definition print_section (i : Z) (review patch_count : value) : M unit :=
  let patch_header := "PATCH " ++ Py.str_int i ++ "/" ++ Py.str patch_count in
  print (Py.nl ++ separator) ;;
  h <- colorize patch_header (Colors.BOLD ++ Colors.BLUE) ;;
  print h ;;
  print separator ;;
  match review with
  | JNull => c <- colorize "No review comments" Colors.GREEN ;; print c
  | _ => print (Py.str review)
  end.

(** [for i, review in enumerate(items, i): ...] *)
Fixpoint print_sections (i : Z) (items : list value) (patch_count : value) : M unit :=
  match items with
  | [] => ret tt
  | review :: rest =>
      print_section i review patch_count ;;
      print_sections (i + 1) rest patch_count
  end.

Definition print_reviews (reviews patch_count : value) : M unit :=
  items <- iterate reviews ;;
  print_sections 1 items patch_count.

(** The namespace [parser.parse_args()] returns. *)
Record Args : Type := {
  args_url : string;
  args_token : string;
  args_tree : option string;
  args_branch : option string;
  args_format : string;
  args_poll_interval : Z;
  args_no_wait : bool;
  args_pw_series : option Z;
  args_review_id : option string;
  args_patches : list string
}.

(** What the validation of [main] settles: check an existing review, or
    submit to a tree. *)
Inductive mode : Type :=
| Existing (review_id : string)
| Submission (tree : string).

Definition is_nil {A} (l : list A) : bool :=
  match l with [] => true | _ => false end.

(** [main], "Validate arguments" *)
Definition validate (args : Args) : M mode :=
  if given (args_review_id args) then
    ret (Existing (match args_review_id args with Some i => i | None => "" end))
  else
    (if negb (given (args_tree args))
     then parser_error "--tree is required when submitting new review"
     else ret tt) ;;
    (if given_int (args_pw_series args) && negb (is_nil (args_patches args))
     then parser_error "Cannot specify both --pw-series and patch files"
     else ret tt) ;;
    (if negb (given_int (args_pw_series args)) && is_nil (args_patches args)
     then parser_error "Must specify either --pw-series or patch files"
     else ret tt) ;;
    ret (Submission (match args_tree args with Some t => t | None => "" end)).

(** [main], "Submit new review if needed", the branch of a new submission;
    [None] is the early [return] of --no-wait *)
Definition submit_new (args : Args) (tree : string) : M (option value) :=
  review_id <-
    (if given_int (args_pw_series args) then
       print ("Submitting patchwork series "
              ++ Py.str_int (match args_pw_series args with Some z => z | None => 0 end)
              ++ " to " ++ tree ++ "...") ;;
       submit_review (args_url args) (args_token args) tree (args_branch args)
                     None (args_pw_series args)
     else
       print ("Reading " ++ Py.str_int (Z.of_nat (length (args_patches args)))
              ++ " patch file(s)...") ;;
       patches <- read_patch_files (args_patches args) ;;
       print ("Submitting to " ++ tree ++ "...") ;;
       submit_review (args_url args) (args_token args) tree (args_branch args)
                     (Some patches) None) ;;
  print ("Review ID: " ++ Py.str review_id) ;;
  if args_no_wait args then
    print "Submission complete (--no-wait specified)" ;;
    ret None
  else
    print ("Monitoring status (polling every "
           ++ Py.str_int (args_poll_interval args) ++ "s)..." ++ Py.nl) ;;
    ret (Some review_id).

(** [status['status'] in ('done', 'error')] *)
Definition terminal (state : value) : bool :=
  Py.eq_str state "done" || Py.eq_str state "error".

(** [main], --no-wait: "If done, fetch and print results" *)
Definition results_once (args : Args) (review_id : value) : M unit :=
  print (Py.nl ++ "Fetching review results...") ;;
  final_status <- get_review_status (args_url args) (args_token args) review_id
                                    (Some (args_format args)) ;;
  reviews <- get final_status "review" (JList []) ;;
  patch_count <- get final_status "patch_count" (JInt 0) ;;
  (if Py.truthy reviews then
     print_reviews reviews patch_count
   else
     state <- subscript final_status "status" ;;
     if Py.eq_str state "error" then
       msg <- get final_status "message" (JStr "Unknown error") ;;
       print ("Error: " ++ Py.str msg) ;;
       sys_exit 1
     else ret tt) ;;
  state <- subscript final_status "status" ;;
  if Py.eq_str state "error" then sys_exit 1 else ret tt.

(** [main], --no-wait: "Check once and exit" *)
Definition check_once (args : Args) (review_id : value) : M unit :=
  status <- get_review_status (args_url args) (args_token args) review_id None ;;
  status_line <- format_status_line status ;;
  print status_line ;;
  state <- subscript status "status" ;;
  if terminal state then results_once args review_id else ret tt.

(** [main], the [while True] loop of "Poll until complete"; the fuel bounds
    the number of rounds the model follows *)
Fixpoint poll_loop (fuel : nat) (args : Args) (review_id : value)
    (last_line_len : nat) : M unit :=
  match fuel with
  | O => out_of_fuel
  | S fuel =>
      status <- get_review_status (args_url args) (args_token args) review_id None ;;
      status_line <- format_status_line status ;;
      emit (Out (Py.cr ++ Py.times " " last_line_len ++ Py.cr ++ status_line)) ;;
      let last_line_len := String.length status_line in
      state <- subscript status "status" ;;
      if terminal state then
        print ""
      else
        sleep (args_poll_interval args) ;;
        poll_loop fuel args review_id last_line_len
  end.

(** [main], the [try] around the loop and its [except KeyboardInterrupt] *)
Definition poll (fuel : nat) (args : Args) (review_id : value) : M unit :=
  except_KeyboardInterrupt
    (poll_loop fuel args review_id 0)
    (print (Py.nl ++ Py.nl ++ "Interrupted by user. Review ID: " ++ Py.str review_id) ;;
     sys_exit 1).

(** [main], "Fetch final results" *)
Definition results_final (args : Args) (review_id : value) : M unit :=
  print (Py.nl ++ "Fetching review results...") ;;
  final_status <- get_review_status (args_url args) (args_token args) review_id
                                    (Some (args_format args)) ;;
  reviews <- get final_status "review" (JList []) ;;
  patch_count <- get final_status "patch_count" (JInt 0) ;;
  (if negb (Py.truthy reviews) then
     print "No reviews available" ;;
     state <- subscript final_status "status" ;;
     if Py.eq_str state "error" then
       msg <- get final_status "message" (JStr "Unknown error") ;;
       print ("Error: " ++ Py.str msg) ;;
       sys_exit 1
     else ret tt
   else
     print_reviews reviews patch_count) ;;
  state <- subscript final_status "status" ;;
  if Py.eq_str state "error" then sys_exit 1 else ret tt.

(** [main], "Monitor status or check once" *)
Definition monitor (fuel : nat) (args : Args) (review_id : value) : M unit :=
  if args_no_wait args then
    check_once args review_id
  else
    poll fuel args review_id ;;
    results_final args review_id.

Definition main (fuel : nat) (args : Args) : M unit :=
  m <- validate args ;;
  match m with
  | Submission tree =>
      submitted <- submit_new args tree ;;
      match submitted with
      | None => ret tt
      | Some review_id => monitor fuel args review_id
      end
  | Existing review_id =>
      print ("Checking review: " ++ review_id) ;;
      monitor fuel args (JStr review_id)
  end.

(** The run of the whole tool in a world. *)
Definition run (w : World) (fuel : nat) (args : Args) : res unit * list event :=
  let '(r, ev, _) := main fuel args w start in (r, ev).

(** ** Vocabulary of the properties *)

Definition result_of {A} (x : res A * list event * Tick) : res A := fst (fst x).
Definition events_of {A} (x : res A * list event * Tick) : list event := snd (fst x).
Definition tick_of {A} (x : res A * list event * Tick) : Tick := snd x.

(** [d.get(key, default)], as a value *)
Definition field (d : list (string * value)) (key : string) (default : value) : value :=
  match Py.lookup key d with
  | Some v => v
  | None => default
  end.

(** the clock after [n] more HTTP calls and [s] more sleeps *)
Definition later (t : Tick) (n s : nat) : Tick :=
  {| calls := calls t + n; slept := slept t + s |}.

(** what [colorize] returns on a terminal ([interactive]) or off it *)
Definition paint (interactive : bool) (text color : string) : string :=
  if interactive then color ++ text ++ Colors.RESET else text.

(** the four lines of the section of entry [i] *)
Definition section_of (interactive : bool) (i : Z) (review patch_count : value)
  : list event :=
  [ Out (Py.nl ++ separator ++ Py.nl);
    Out (paint interactive ("PATCH " ++ Py.str_int i ++ "/" ++ Py.str patch_count)
               (Colors.BOLD ++ Colors.BLUE) ++ Py.nl);
    Out (separator ++ Py.nl);
    Out (match review with
         | JNull => paint interactive "No review comments" Colors.GREEN
         | _ => Py.str review
         end ++ Py.nl) ].

Fixpoint sections_from (interactive : bool) (i : Z) (items : list value)
    (patch_count : value) : list (list event) :=
  match items with
  | [] => []
  | review :: rest =>
      section_of interactive i review patch_count
      :: sections_from interactive (i + 1) rest patch_count
  end.

(** the number of sections opened in an output: the lines that open one *)
Definition opens_section (e : event) : bool :=
  match e with
  | Out text => String.eqb text (Py.nl ++ separator ++ Py.nl)
  | _ => false
  end.

Definition section_count (ev : list event) : nat :=
  length (filter opens_section ev).

(** the events other than output: files, network, sleeps *)
Definition is_io (e : event) : bool :=
  match e with
  | Out _ | ErrOut _ | Usage _ => false
  | _ => true
  end.

Definition io_of (ev : list event) : list event := filter is_io ev.

(** [k] rounds of: one call, one sleep *)
Fixpoint rounds (k : nat) (call nap : event) : list event :=
  match k with
  | O => []
  | S k => call :: nap :: rounds k call nap
  end.

(** the status-only request of the loop and the request for the results *)
Definition status_request (args : Args) (review_id : value) : event :=
  Get (api_url (args_url args))
      [("id", review_id); ("token", JStr (args_token args))].

Definition results_request (args : Args) (review_id : value) : event :=
  Get (api_url (args_url args))
      (query (args_token args) review_id (Some (args_format args))).

(** the [n]-th call is answered by a status record in state [state] that
    [format_status_line] can show *)
Definition answers (w : World) (n : nat) (state : value) : Prop :=
  exists d line,
    net w n = Body (JObj d) /\
    Py.lookup "status" d = Some state /\
    result_of (format_status_line (JObj d) w start) = Ok line.

(** a computation that writes nothing, calls nothing, and whose result
    depends on the world through [tty] only *)
Definition quiet {A} (m : M A) : Prop :=
  forall w1 w2 t1 t2, tty w1 = tty w2 ->
    exists r, m w1 t1 = (r, [], t1) /\ m w2 t2 = (r, [], t2).

(** every event of a computation satisfies [P], wherever it is run *)
Definition emits {A} (P : event -> Prop) (m : M A) : Prop :=
  forall w t, Forall P (events_of (m w t)).



(** an event of the monitoring phase before the results are fetched *)
Definition polling_event (args : Args) (review_id : value) (e : event) : Prop :=
  e = status_request args review_id \/
  e = Sleep (args_poll_interval args) \/
  exists line, e = Out (Py.cr ++ line).

(** neither the network nor the file system is touched, no usage error *)
Definition checks_only (e : event) : Prop :=
  match e with
  | Post _ _ | ReadFile _ | Usage _ => False
  | _ => True
  end.

(** the text of an event mentions [needle] *)
Definition shows (needle : string) (e : event) : bool :=
  match e with
  | Out text | ErrOut text | Usage text => Py.contains needle text
  | _ => false
  end.

(** the namespace with the submission inputs left out *)
Definition without_submission (args : Args) : Args :=
  {| args_url := args_url args;
     args_token := args_token args;
     args_tree := None;
     args_branch := None;
     args_format := args_format args;
     args_poll_interval := args_poll_interval args;
     args_no_wait := args_no_wait args;
     args_pw_series := None;
     args_review_id := args_review_id args;
     args_patches := [] |}.



(** *** Sample worlds and command lines *)

Definition no_files : string -> file_reply := fun _ => NotFound.

Definition check_args (no_wait : bool) : Args :=
  {| args_url := "https://example.com/air";
     args_token := "mytoken";
     args_tree := None;
     args_branch := None;
     args_format := "inline";
     args_poll_interval := 5;
     args_no_wait := no_wait;
     args_pw_series := None;
     args_review_id := Some "abc-123-def";
     args_patches := [] |}.

Definition queued3 : value := JObj [("status", JStr "queued"); ("queue-len", JInt 3)].

Definition done2 : value :=
  JObj [("status", JStr "done"); ("patch_count", JInt 2)].

(** the service answers queued, queued, then done *)
Definition slow_service : World :=
  {| tty := false;
     files := no_files;
     net := fun n => match n with
                     | 0%nat | 1%nat => Body queued3
                     | _ => Body done2
                     end;
     naps := fun _ => Slept |}.

(** the same service, with Ctrl-C during the second sleep *)
Definition impatient_user : World :=
  {| tty := false;
     files := no_files;
     net := net slow_service;
     naps := fun n => match n with 1%nat => Woken | _ => Slept end |}.

(** the service reports an error: the status-only answer has no message,
    the answer with the results has the message and one review *)
Definition failed_review : World :=
  {| tty := false;
     files := no_files;
     net := fun n => match n with
                     | 0%nat => Body (JObj [("status", JStr "error")])
                     | _ => Body (JObj [("status", JStr "error");
                                        ("message", JStr "boom");
                                        ("patch_count", JInt 2);
                                        ("review", JList [JStr "patch 1: fine"])])
                     end;
     naps := fun _ => Slept |}.

(** the service reports an error and has no review at all *)
Definition failed_early : World :=
  {| tty := false;
     files := no_files;
     net := fun _ => Body (JObj [("status", JStr "error"); ("message", JStr "boom")]);
     naps := fun _ => Slept |}.

(** a check of an existing review with submission inputs on the same
    command line *)
Definition mixed_args : Args :=
  {| args_url := "https://example.com/air";
     args_token := "mytoken";
     args_tree := Some "netdev/net-next";
     args_branch := None;
     args_format := "inline";
     args_poll_interval := 5;
     args_no_wait := true;
     args_pw_series := Some 1026553;
     args_review_id := Some "abc-123-def";
     args_patches := ["0001-fix.patch"] |}.

(** a submission with the series id [series] and the patch files [patches] *)
Definition submit_args (series : option Z) (patches : list string) : Args :=
  {| args_url := "https://example.com/air";
     args_token := "mytoken";
     args_tree := Some "netdev/net-next";
     args_branch := None;
     args_format := "inline";
     args_poll_interval := 5;
     args_no_wait := true;
     args_pw_series := series;
     args_review_id := None;
     args_patches := patches |}.

(** every file is readable and the service accepts the submission *)
Definition accepting_service : World :=
  {| tty := false;
     files := fun _ => Content "diff --git a/f b/f";
     net := fun _ => Body (JObj [("review_id", JStr "r-1")]);
     naps := fun _ => Slept |}.

(** the service answers with a JSON object that has no field *)
Definition empty_reply : World :=
  {| tty := false;
     files := no_files;
     net := fun _ => Body (JObj []);
     naps := fun _ => Slept |}.

(** the round [i] after [t] of the polling loop: the service answers with
    a state that is not terminal *)
Definition waiting (w : World) (t : Tick) (i : nat) : Prop :=
  exists state, answers w (calls t + i) state /\ terminal state = false.

(** a duration [time.sleep] passes on to the system *)
Definition sleepable (secs : Z) : Prop := 0 <= secs <= max_sleep.

(** ... and the sleep of [secs] seconds that follows lasts *)
Definition passes (w : World) (secs : Z) (t : Tick) (i : nat) : Prop :=
  waiting w t i /\ sleepable secs /\ naps w (slept t + i) = Slept.

(** Ctrl-C in round [i]: during the call, or during the sleep of [secs]
    seconds *)
Definition interrupted (w : World) (secs : Z) (t : Tick) (i : nat) : Prop :=
  net w (calls t + i) = Interrupt \/
  (waiting w t i /\ sleepable secs /\ naps w (slept t + i) = Woken).

(** events that neither submit, nor read a file, nor report a usage error *)
Definition benign (e : event) : Prop :=
  match e with
  | Out _ | ErrOut _ | Get _ _ | Sleep _ => True
  | _ => False
  end.

Definition fetching : event := Out (Py.nl ++ "Fetching review results..." ++ Py.nl).

Definition interrupted_line (review_id : value) : event :=
  Out (Py.nl ++ Py.nl ++ "Interrupted by user. Review ID: " ++ Py.str review_id ++ Py.nl).

(** *** Vocabulary of the further properties *)

(** the text of a file that was read, the message for one that was not *)
Definition text_of (f : file_reply) : string :=
  match f with
  | Content text => text
  | _ => ""
  end.

Definition readable (w : World) (path : string) : Prop :=
  exists text, files w path = Content text.

Definition read_error (path : string) (f : file_reply) : string :=
  match f with
  | Unreadable e => "Error reading patch file " ++ path ++ ": " ++ e
  | _ => "Error: Patch file not found: " ++ path
  end.




(** how [submit_review] ends once its request [post] is out, by the reply *)
Definition submit_outcome (post : event) (r : reply) : res value * list event :=
  match r with
  | Body (JObj data) =>
      match Py.lookup "review_id" data with
      | Some review_id => (Ok review_id, [post])
      | None => (Exit 1, [post; ErrOut ("Error parsing response: 'review_id'" ++ Py.nl)])
      end
  | Body _ => (Raise TypeError, [post])
  | Failed e => (Exit 1, [post; ErrOut ("Error submitting review: " ++ e ++ Py.nl)])
  | NotJson e => (Exit 1, [post; ErrOut ("Error parsing response: " ++ e ++ Py.nl)])
  | Interrupt => (Raise KeyboardInterrupt, [post])
  end.

(** how [get_review_status] ends once its request [query] is out *)
Definition status_outcome (query : event) (r : reply) : res value * list event :=
  match r with
  | Body data => (Ok data, [query])
  | Failed e => (Exit 1, [query; ErrOut ("Error querying review status: " ++ e ++ Py.nl)])
  | NotJson e => (Exit 1, [query; ErrOut ("Error parsing response: " ++ e ++ Py.nl)])
  | Interrupt => (Raise KeyboardInterrupt, [query])
  end.

(** the patches of an optional list, as the JSON array of the payload *)
Definition patches_json (patches : option (list string)) : value :=
  JList (map JStr (match patches with Some l => l | None => [] end)).

(** the round [i] after [t] of the polling loop fails in transport *)
Definition query_failure (e : string) : event :=
  ErrOut ("Error querying review status: " ++ e ++ Py.nl).

(** the service goes away after one answer *)
Definition flaky_service : World :=
  {| tty := false;
     files := no_files;
     net := fun n => match n with
                     | 0%nat => Body queued3
                     | _ => Failed "connection refused"
                     end;
     naps := fun _ => Slept |}.

(** Ctrl-C during every HTTP call *)
Definition hasty_user : World :=
  {| tty := false;
     files := no_files;
     net := fun _ => Interrupt;
     naps := fun _ => Slept |}.

(** the review is done and has two entries, the second without findings *)
Definition finished_review : World :=
  {| tty := false;
     files := no_files;
     net := fun _ => Body (JObj [("status", JStr "done"); ("patch_count", JInt 2);
                                 ("review", JList [JStr "patch 1: fine"; JNull])]);
     naps := fun _ => Slept |}.

Definition polling_args (interval : Z) : Args :=
  {| args_url := "https://example.com/air";
     args_token := "mytoken";
     args_tree := None;
     args_branch := None;
     args_format := "markup";
     args_poll_interval := interval;
     args_no_wait := false;
     args_pw_series := None;
     args_review_id := Some "abc-123-def";
     args_patches := [] |}.

(** the result and the events of the last steps of [main], once the
    status with the results is known: the reviews, or [otherwise] *)
Definition rendered (interactive : bool) (r : res unit) (asked otherwise : list event)
    (reviews patch_count : value) : res unit * list event :=
  if Py.truthy reviews then
    match items_of reviews with
    | Some items =>
        (r, (asked ++ concat (sections_from interactive 1 items patch_count))%list)
    | None => (Raise TypeError, asked)
    end
  else (r, (asked ++ otherwise)%list).

(** what a run may do, given its command line: write; open a patch file
    named on it; talk to the API address of --url, with the token; sleep
    for the polling interval *)
Definition expected (args : Args) (e : event) : Prop :=
  match e with
  | Out _ | ErrOut _ | Usage _ => True
  | ReadFile path => In path (args_patches args)
  | Post url (JObj payload) =>
      url = api_url (args_url args) /\
      Py.lookup "token" payload = Some (JStr (args_token args))
  | Post _ _ => False
  | Get url params =>
      url = api_url (args_url args) /\
      Py.lookup "token" params = Some (JStr (args_token args))
  | Sleep secs => secs = args_poll_interval args
  end.

(** an event of the submission: output, a patch file of [paths], a POST
    to the API address of [url] with the token *)
Definition submission_event (url token : string) (paths : list string) (e : event)
  : Prop :=
  match e with
  | Out _ | ErrOut _ => True
  | ReadFile path => In path paths
  | Post u (JObj payload) =>
      u = api_url url /\ Py.lookup "token" payload = Some (JStr token)
  | _ => False
  end.

(** neither a status request nor a sleep *)
Definition never_polls (e : event) : Prop :=
  match e with
  | Get _ _ | Sleep _ => False
  | _ => True
  end.

(** the end of a new submission once the review id is known: stop there
    with --no-wait, monitor the review otherwise *)
Definition after_submission (fuel : nat) (args : Args) (review_id : value)
    (w : World) (t : Tick) (head : list event) : res unit * list event * Tick :=
  let shown := (head ++ [Out ("Review ID: " ++ Py.str review_id ++ Py.nl)])%list in
  if args_no_wait args then
    (Ok tt, (shown ++ [Out ("Submission complete (--no-wait specified)" ++ Py.nl)])%list, t)
  else
    let x := monitor fuel args review_id w t in
    (result_of x,
     (shown ++ Out ("Monitoring status (polling every "
                    ++ Py.str_int (args_poll_interval args) ++ "s)..." ++ Py.nl ++ Py.nl)
            :: events_of x)%list,
     tick_of x).

(** the service accepts a series and the review is done at once *)
Definition prompt_service : World :=
  {| tty := false;
     files := no_files;
     net := fun n => match n with
                     | 0%nat => Body (JObj [("review_id", JStr "r-1")])
                     | _ => Body done2
                     end;
     naps := fun _ => Slept |}.

(** ** The model at work *)

Example str_of_nested_value :
  Py.str (JObj [("a", JInt (-12)); ("b", JList [JNull; JBool true; JStr "it's"])])
  = "{'a': -12, 'b': [None, True, " ++ String Py.dquote ("it's" ++ String Py.dquote "]}").
Proof. reflexivity. Qed.

Example api_url_strips_slashes :
  api_url "https://example.com/air//" = "https://example.com/air/api/review".
Proof. reflexivity. Qed.

(** `--review-id abc-123-def --no-wait` with the answer
    {status: queued, queue-len: 3}: one request, one line, success *)
Example check_once_queued :
  run slow_service 0 (check_args true)
  = (Ok tt,
     [Out ("Checking review: abc-123-def" ++ Py.nl);
      status_request (check_args true) (JStr "abc-123-def");
      Out ("Status: queued (patches ahead: 3)" ++ Py.nl)]).
Proof. reflexivity. Qed.

(** two patch files and --tree: one POST with the two patches in order *)
Example submit_two_files :
  io_of (snd (run accepting_service 0 (submit_args None ["a.patch"; "b.patch"])))
  = [ReadFile "a.patch"; ReadFile "b.patch";
     Post "https://example.com/air/api/review"
          (JObj [("token", JStr "mytoken"); ("tree", JStr "netdev/net-next");
                 ("patches", JList [JStr "diff --git a/f b/f";
                                    JStr "diff --git a/f b/f"])])].
Proof. reflexivity. Qed.

(** ** The monad, step by step *)

Section Steps.
Context {A B : Type}.
Variables (m : M A) (k : A -> M B) (w : World) (t : Tick).

Lemma bind_ok a ev t' :
  m w t = (Ok a, ev, t') ->
  bind m k w t = (result_of (k a w t'), (ev ++ events_of (k a w t'))%list,
                  tick_of (k a w t')).
Proof.
  intros H. unfold bind. rewrite H.
  destruct (k a w t') as [[r ev'] t'']. reflexivity.
Qed.

Lemma bind_exit c ev t' :
  m w t = (Exit c, ev, t') -> bind m k w t = (Exit c, ev, t').
Proof. intros H. unfold bind. now rewrite H. Qed.

Lemma bind_raise e ev t' :
  m w t = (Raise e, ev, t') -> bind m k w t = (Raise e, ev, t').
Proof. intros H. unfold bind. now rewrite H. Qed.
End Steps.

Lemma triple_eta {A} (x : res A * list event * Tick) :
  x = (result_of x, events_of x, tick_of x).
Proof. now destruct x as [[r ev] t]. Qed.

Lemma bind_ext {A B} (m : M A) (k k' : A -> M B) w t :
  (forall a w' t', k a w' t' = k' a w' t') -> bind m k w t = bind m k' w t.
Proof.
  intros H. unfold bind. destruct (m w t) as [[[a | c | e |] ev] t']; auto.
  now rewrite H.
Qed.

(** *** Quiet computations *)

Lemma quiet_ret {A} (a : A) : quiet (ret a).
Proof. intros w1 w2 t1 t2 _. now exists (Ok a). Qed.

Lemma quiet_raise {A} (e : exn) : quiet (@raise A e).
Proof. intros w1 w2 t1 t2 _. now exists (Raise e). Qed.

Lemma quiet_isatty : quiet isatty.
Proof.
  intros w1 w2 t1 t2 H. exists (Ok (tty w1)). unfold isatty. now rewrite H.
Qed.

Lemma quiet_bind {A B} (m : M A) (k : A -> M B) :
  quiet m -> (forall a, quiet (k a)) -> quiet (bind m k).
Proof.
  intros Hm Hk w1 w2 t1 t2 E.
  destruct (Hm w1 w2 t1 t2 E) as [r [H1 H2]].
  destruct r as [a | c | e |].
  - destruct (Hk a w1 w2 t1 t2 E) as [r' [K1 K2]].
    exists r'. unfold bind. now rewrite H1, H2, K1, K2.
  - exists (Exit c). unfold bind. now rewrite H1, H2.
  - exists (Raise e). unfold bind. now rewrite H1, H2.
  - exists OutOfFuel. unfold bind. now rewrite H1, H2.
Qed.

Lemma quiet_if {A} (b : bool) (m1 m2 : M A) :
  quiet m1 -> quiet m2 -> quiet (if b then m1 else m2).
Proof. now destruct b. Qed.

Lemma quiet_subscript v key : quiet (subscript v key).
Proof.
  destruct v; simpl; try apply quiet_raise.
  destruct (Py.lookup key d); [apply quiet_ret | apply quiet_raise].
Qed.

Lemma quiet_get v key default : quiet (get v key default).
Proof.
  destruct v; simpl; try apply quiet_raise.
  destruct (Py.lookup key d); apply quiet_ret.
Qed.

Lemma quiet_gt0 v : quiet (gt0 v).
Proof. destruct v; simpl; try apply quiet_raise; apply quiet_ret. Qed.

Lemma quiet_colorize text color : quiet (colorize text color).
Proof.
  unfold colorize. apply quiet_bind; [apply quiet_isatty |].
  intros b. apply quiet_if; apply quiet_ret.
Qed.

Create HintDb quiet.
#[local] Hint Resolve quiet_ret quiet_raise quiet_bind quiet_if quiet_subscript
  quiet_get quiet_gt0 quiet_colorize : quiet.

Lemma quiet_format_status_line status : quiet (format_status_line status).
Proof.
  unfold format_status_line.
  repeat (first [ apply quiet_bind; [auto with quiet | intros ?]
                | apply quiet_if
                | apply quiet_ret ]).
Qed.

(** a quiet computation gives the same answer at every tick *)
Lemma quiet_anywhere {A} (m : M A) w t r :
  quiet m -> result_of (m w start) = r -> m w t = (r, [], t).
Proof.
  intros Q H. destruct (Q w w start t eq_refl) as [r' [H1 H2]].
  rewrite H1 in H. simpl in H. now subst.
Qed.

Lemma colorize_paint text color w t :
  colorize text color w t = (Ok (paint (tty w) text color), [], t).
Proof. unfold colorize, bind, isatty, paint. now destruct (tty w). Qed.

(** ** The status formatter *)

Lemma eq_str_other (state : value) (s : string) :
  state <> JStr s -> Py.eq_str state s = false.
Proof.
  intros H. destruct state; try reflexivity.
  simpl. apply String.eqb_neq. intros ->. now apply H.
Qed.

(** C9: a status record whose state is any value other than the strings
    queued, in-progress, done and error is formatted without failure,
    whatever the other fields and the terminal are: the line is "Status: "
    followed by the state as [str] shows it, which for a state that is a
    string is the raw string, unmodified. *)
Theorem format_status_line_unknown_state :
  forall (d : list (string * value)) (state : value) (w : World) (t : Tick),
    Py.lookup "status" d = Some state ->
    state <> JStr "queued" -> state <> JStr "in-progress" ->
    state <> JStr "done" -> state <> JStr "error" ->
    format_status_line (JObj d) w t = (Ok ("Status: " ++ Py.str state), [], t) /\
    (forall s, state = JStr s ->
               format_status_line (JObj d) w t = (Ok ("Status: " ++ s), [], t)).
Proof.
  intros d state w t Hs Hq Hp Hd He.
  apply eq_str_other in Hq, Hp, Hd, He.
  assert (H : format_status_line (JObj d) w t
              = (Ok ("Status: " ++ Py.str state), [], t)).
  { unfold format_status_line, subscript, get, bind. rewrite Hs.
    destruct (Py.lookup "patch_count" d), (Py.lookup "completed_patches" d);
      unfold ret; cbv beta iota zeta; rewrite Hq, Hp, Hd, He; reflexivity. }
  split; [exact H |].
  intros s ->. exact H.
Qed.

Lemma format_status_line_unknown_state_witness :
  format_status_line (JObj [("status", JList [JStr "paused"; JNull]);
                            ("patch_count", JStr "n/a")])
                     slow_service start
  = (Ok "Status: ['paused', None]", [], start)
  /\
  (forall s, JList [JStr "paused"; JNull] = JStr s ->
             format_status_line (JObj [("status", JList [JStr "paused"; JNull]);
                                       ("patch_count", JStr "n/a")])
                                slow_service start
             = (Ok ("Status: " ++ s), [], start)).
Proof.
  apply (format_status_line_unknown_state
           [("status", JList [JStr "paused"; JNull]); ("patch_count", JStr "n/a")]
           (JList [JStr "paused"; JNull]));
    [reflexivity | discriminate ..].
Defined.

(** C5, as the code has it: the formatter has no side effect (it writes
    nothing, calls nothing and leaves the clock alone) and its result is
    the same in any two surroundings that agree on whether stdout is a
    terminal, which [colorize] asks from inside the formatter; no flag is
    passed in. *)
Theorem format_status_line_deterministic :
  forall (status : value) (w1 w2 : World) (t1 t2 : Tick),
    tty w1 = tty w2 ->
    exists r : res string,
      format_status_line status w1 t1 = (r, [], t1) /\
      format_status_line status w2 t2 = (r, [], t2).
Proof. intros status. exact (quiet_format_status_line status). Qed.

Lemma format_status_line_deterministic_witness :
  exists r : res string,
    format_status_line queued3 slow_service start = (r, [], start) /\
    format_status_line queued3 impatient_user (later start 2 1) = (r, [], later start 2 1).
Proof.
  apply (format_status_line_deterministic queued3 slow_service impatient_user).
  reflexivity.
Defined.

(** C5, as the spec words it, fails: with the same status record the line
    differs between a terminal and a pipe, so the colour is not under the
    control of an argument of the formatter. *)
Lemma format_status_line_reads_terminal :
  ~ (forall (status : value) (w1 w2 : World) (t : Tick),
        result_of (format_status_line status w1 t)
        = result_of (format_status_line status w2 t)).
Proof.
  intros H.
  specialize (H queued3 slow_service
                {| tty := true; files := no_files; net := net slow_service;
                   naps := naps slow_service |} start).
  vm_compute in H. discriminate H.
Qed.

(** ** Submission *)

(** C10: with an empty list of patches and a series id that is None or 0,
    [submit_review] writes its error to stderr and exits with code 1; no
    request is issued (the only event is the message and the count of HTTP
    calls is unchanged), so a series id of 0 counts as not provided. *)
Theorem submit_review_falsy_inputs :
  forall (url token tree : string) (branch : option string)
         (patchwork_series_id : option Z) (w : World) (t : Tick),
    patchwork_series_id = None \/ patchwork_series_id = Some 0 ->
    submit_review url token tree branch (Some []) patchwork_series_id w t
    = (Exit 1,
       [ErrOut ("Error: Either patches or patchwork_series_id must be provided" ++ Py.nl)],
       t).
Proof.
  intros url token tree branch pw w t [-> | ->]; reflexivity.
Qed.

Lemma submit_review_falsy_inputs_witness :
  submit_review "https://example.com/air" "mytoken" "netdev/net-next" None
                (Some []) (Some 0) slow_service start
  = (Exit 1,
     [ErrOut ("Error: Either patches or patchwork_series_id must be provided" ++ Py.nl)],
     start).
Proof.
  apply (submit_review_falsy_inputs "https://example.com/air" "mytoken"
           "netdev/net-next" None (Some 0)).
  right. reflexivity.
Defined.

(** ** Rendering the reviews *)

Lemma print_section_events i review patch_count w t :
  print_section i review patch_count w t
  = (Ok tt, section_of (tty w) i review patch_count, t).
Proof.
  unfold print_section, section_of, bind, print, emit.
  rewrite colorize_paint.
  destruct review; try reflexivity.
  now rewrite colorize_paint.
Qed.

Lemma print_sections_events items : forall i patch_count w t,
  print_sections i items patch_count w t
  = (Ok tt, concat (sections_from (tty w) i items patch_count), t).
Proof.
  induction items as [| review rest IH]; intros i patch_count w t.
  - reflexivity.
  - cbn [print_sections sections_from concat].
    erewrite bind_ok by apply print_section_events.
    rewrite IH. reflexivity.
Qed.

Lemma sections_from_length interactive items : forall i patch_count,
  length (sections_from interactive i items patch_count) = length items.
Proof.
  induction items as [| review rest IH]; intros i patch_count; simpl; auto.
Qed.

Lemma sections_from_nth interactive items : forall i patch_count k review,
  nth_error items k = Some review ->
  nth_error (sections_from interactive i items patch_count) k
  = Some (section_of interactive (i + Z.of_nat k) review patch_count).
Proof.
  induction items as [| r rest IH]; intros i patch_count k review H.
  - destruct k; discriminate.
  - destruct k as [| k]; simpl in *.
    + injection H as ->. now rewrite Z.add_0_r.
    + rewrite (IH (i + 1) patch_count k review H).
      do 2 f_equal. lia.
Qed.

(** C1, as the code has it: [print_reviews] prints one numbered section
    per entry of the reviews list, numbered from 1 in the order of the
    list, each headed "PATCH i/patch_count"; their number is the length of
    the list, whatever patch_count is.  The section of a None entry ends
    with the fixed line "No review comments", that of any other entry with
    the text of the review. *)
Theorem print_reviews_one_section_per_entry :
  forall (reviews : list value) (patch_count : value) (w : World) (t : Tick),
    exists secs : list (list event),
      print_reviews (JList reviews) patch_count w t = (Ok tt, concat secs, t) /\
      length secs = length reviews /\
      (forall k review,
          nth_error reviews k = Some review ->
          nth_error secs k
          = Some (section_of (tty w) (Z.of_nat k + 1) review patch_count)) /\
      (forall i, last (section_of (tty w) i JNull patch_count) (Out "")
                 = Out (paint (tty w) "No review comments" Colors.GREEN ++ Py.nl)).
Proof.
  intros reviews patch_count w t.
  exists (sections_from (tty w) 1 reviews patch_count).
  repeat split.
  - unfold print_reviews, iterate. simpl items_of.
    erewrite bind_ok by reflexivity.
    now rewrite print_sections_events.
  - apply sections_from_length.
  - intros k review H.
    rewrite (sections_from_nth (tty w) reviews 1 patch_count k review H).
    do 2 f_equal. lia.
Qed.

Lemma print_reviews_one_section_per_entry_witness :
  exists secs : list (list event),
    print_reviews (JList [JStr "patch 1: fine"; JNull]) (JInt 5) slow_service start
    = (Ok tt, concat secs, start) /\
    length secs = 2%nat /\
    (forall k review,
        nth_error [JStr "patch 1: fine"; JNull] k = Some review ->
        nth_error secs k = Some (section_of false (Z.of_nat k + 1) review (JInt 5))) /\
    (forall i, last (section_of false i JNull (JInt 5)) (Out "")
               = Out ("No review comments" ++ Py.nl)).
Proof.
  apply (print_reviews_one_section_per_entry [JStr "patch 1: fine"; JNull] (JInt 5)
           slow_service start).
Defined.

(** C1, as the spec words it, fails: with one review and a patch count of
    three, one section is printed, not three. *)
Lemma print_reviews_not_patch_count_sections :
  ~ (forall (reviews : list value) (patch_count : nat) (w : World) (t : Tick),
        section_count
          (events_of (print_reviews (JList reviews) (JInt (Z.of_nat patch_count)) w t))
        = patch_count).
Proof.
  intros H.
  specialize (H [JStr "looks fine"] 3%nat slow_service start).
  vm_compute in H. discriminate H.
Qed.

Lemma get_review_status_body url token review_id fmt data w t :
  net w (calls t) = Body data ->
  get_review_status url token review_id fmt w t
  = (Ok data, [Get (api_url url) (query token review_id fmt)], called t).
Proof.
  intros H. unfold get_review_status, bind, request. rewrite H. reflexivity.
Qed.

Lemma get_field d key default w t :
  get (JObj d) key default w t = (Ok (field d key default), [], t).
Proof. unfold get, field. now destruct (Py.lookup key d). Qed.

Lemma print_reviews_events reviews patch_count w t :
  print_reviews reviews patch_count w t
  = match items_of reviews with
    | Some items => (Ok tt, concat (sections_from (tty w) 1 items patch_count), t)
    | None => (Raise TypeError, [], t)
    end.
Proof.
  unfold print_reviews, iterate.
  destruct (items_of reviews) as [items |].
  - erewrite bind_ok by reflexivity. now rewrite print_sections_events.
  - reflexivity.
Qed.

(** ** The final status *)

(** C4, as the code has it: when the status fetched with the results is
    an object in state error, what follows depends on its reviews.  With
    no review (the field absent or falsy) the message of that status is
    printed, as "Error: " and the message ("Unknown error" when it has
    none), and the tool exits with code 1.  With reviews that can be
    iterated, the sections are printed and the tool exits with code 1
    without printing that message.  (A truthy value that cannot be
    iterated ends in the TypeError of [print_reviews].)  The same holds
    after polling ([results_final], which also prints "No reviews
    available") and with --no-wait ([results_once]). *)
Theorem final_error_exit :
  forall (args : Args) (review_id : value) (w : World) (t : Tick)
         (d : list (string * value)),
    net w (calls t) = Body (JObj d) ->
    Py.lookup "status" d = Some (JStr "error") ->
    let reviews := field d "review" (JList []) in
    let patch_count := field d "patch_count" (JInt 0) in
    let msg := field d "message" (JStr "Unknown error") in
    let asked := [fetching; results_request args review_id] in
    results_final args review_id w t
    = (if Py.truthy reviews then
         match items_of reviews with
         | Some items =>
             (Exit 1,
              asked ++ concat (sections_from (tty w) 1 items patch_count),
              called t)
         | None => (Raise TypeError, asked, called t)
         end
       else
         (Exit 1,
          asked ++ [Out ("No reviews available" ++ Py.nl);
                    Out ("Error: " ++ Py.str msg ++ Py.nl)],
          called t))%list
    /\
    results_once args review_id w t
    = (if Py.truthy reviews then
         match items_of reviews with
         | Some items =>
             (Exit 1,
              asked ++ concat (sections_from (tty w) 1 items patch_count),
              called t)
         | None => (Raise TypeError, asked, called t)
         end
       else
         (Exit 1, asked ++ [Out ("Error: " ++ Py.str msg ++ Py.nl)], called t))%list.
Proof.
  intros args review_id w t d Hnet Hst reviews patch_count msg asked.
  split.
  - unfold results_final.
    unfold bind at 1. cbn [print emit].
    unfold bind at 1. rewrite (get_review_status_body _ _ _ _ _ _ _ Hnet).
    unfold bind at 1. rewrite get_field. fold reviews.
    unfold bind at 1. rewrite get_field. fold patch_count.
    destruct (Py.truthy reviews); cbn [negb].
    + unfold bind at 1. rewrite print_reviews_events.
      destruct (items_of reviews) as [items |]; [| reflexivity].
      unfold bind, subscript. rewrite Hst. cbn. now rewrite app_nil_r.
    + unfold bind, subscript, print, emit. rewrite Hst. cbn.
      unfold msg, field. destruct (Py.lookup "message" d); reflexivity.
  - unfold results_once.
    unfold bind at 1. cbn [print emit].
    unfold bind at 1. rewrite (get_review_status_body _ _ _ _ _ _ _ Hnet).
    unfold bind at 1. rewrite get_field. fold reviews.
    unfold bind at 1. rewrite get_field. fold patch_count.
    destruct (Py.truthy reviews).
    + unfold bind at 1. rewrite print_reviews_events.
      destruct (items_of reviews) as [items |]; [| reflexivity].
      unfold bind, subscript. rewrite Hst. cbn. now rewrite app_nil_r.
    + unfold bind, subscript, print, emit. rewrite Hst. cbn.
      unfold msg, field. destruct (Py.lookup "message" d); reflexivity.
Qed.

Lemma final_error_exit_witness :
  results_final (check_args false) (JStr "abc-123-def") failed_early start
  = (Exit 1,
     [fetching; results_request (check_args false) (JStr "abc-123-def");
      Out ("No reviews available" ++ Py.nl); Out ("Error: boom" ++ Py.nl)],
     called start)
  /\
  results_once (check_args false) (JStr "abc-123-def") failed_early start
  = (Exit 1,
     [fetching; results_request (check_args false) (JStr "abc-123-def");
      Out ("Error: boom" ++ Py.nl)],
     called start).
Proof.
  apply (final_error_exit (check_args false) (JStr "abc-123-def") failed_early start
           [("status", JStr "error"); ("message", JStr "boom")]);
    reflexivity.
Defined.

(** C4, as the spec words it, fails: the final status is in state error
    with the message "boom" and one review; the review is printed, the
    tool exits with code 1, and no line of the run has the message. *)
Lemma error_message_not_rendered :
  net failed_review 1
  = Body (JObj [("status", JStr "error"); ("message", JStr "boom");
                ("patch_count", JInt 2); ("review", JList [JStr "patch 1: fine"])])
  /\ fst (run failed_review 2 (check_args false)) = Exit 1
  /\ existsb (shows "patch 1: fine") (snd (run failed_review 2 (check_args false))) = true
  /\ existsb (shows "boom") (snd (run failed_review 2 (check_args false))) = false.
Proof. repeat split; vm_compute; reflexivity. Qed.

(** ** The polling loop *)

Lemma later_0 t : later t 0 0 = t.
Proof. destruct t as [c s]. unfold later. simpl. now rewrite !Nat.add_0_r. Qed.

Lemma later_step t k s : later (napped (called t)) k s = later t (S k) (S s).
Proof. unfold later, napped, called. simpl. f_equal; lia. Qed.

Lemma sleep_asks secs w t :
  sleepable secs ->
  sleep secs w t
  = (match naps w (slept t) with
     | Slept => Ok tt
     | Woken => Raise KeyboardInterrupt
     | Refused e => Raise e
     end, [Sleep secs], napped t).
Proof.
  intros [H0 H1]. unfold sleep.
  destruct (Z.ltb_spec secs (- max_sleep)); [unfold max_sleep in *; lia |].
  destruct (Z.ltb_spec max_sleep secs); [lia |].
  destruct (Z.ltb_spec secs 0); [lia | reflexivity].
Qed.

Lemma sleep_ok secs w t :
  sleepable secs -> naps w (slept t) = Slept ->
  sleep secs w t = (Ok tt, [Sleep secs], napped t).
Proof. intros H N. rewrite (sleep_asks secs w t H). now rewrite N. Qed.

Lemma sleep_interrupted secs w t :
  sleepable secs -> naps w (slept t) = Woken ->
  sleep secs w t = (Raise KeyboardInterrupt, [Sleep secs], napped t).
Proof. intros H N. rewrite (sleep_asks secs w t H). now rewrite N. Qed.

(** one round of the loop, up to the test of the state *)
Lemma poll_loop_round args review_id w t state :
  answers w (calls t) state ->
  exists line, forall fuel len,
    poll_loop (S fuel) args review_id len w t
    = let x := (if terminal state then print ""
                else bind (sleep (args_poll_interval args))
                          (fun _ => poll_loop fuel args review_id (String.length line)))
                 w (called t) in
      (result_of x,
       (status_request args review_id
        :: Out (Py.cr ++ Py.times " " len ++ Py.cr ++ line) :: events_of x)%list,
       tick_of x).
Proof.
  intros (d & line & Hnet & Hst & Hline). exists line. intros fuel len.
  cbn [poll_loop].
  unfold bind at 1. rewrite (get_review_status_body _ _ _ _ _ _ _ Hnet).
  unfold bind at 1.
  rewrite (quiet_anywhere (format_status_line (JObj d)) w (called t) (Ok line)
             (quiet_format_status_line _) Hline).
  unfold bind at 1. cbn [emit].
  unfold bind at 1. unfold subscript at 1. rewrite Hst. cbn [ret].
  cbv zeta.
  match goal with
  | |- context [(if terminal state then ?a else ?b) w (called t)] =>
      destruct ((if terminal state then a else b) w (called t)) as [[r ev] t']
  end.
  reflexivity.
Qed.

Lemma poll_loop_pass args review_id w t :
  passes w (args_poll_interval args) t 0 ->
  exists line, forall fuel len,
    poll_loop (S fuel) args review_id len w t
    = let x := poll_loop fuel args review_id (String.length line) w (napped (called t)) in
      (result_of x,
       (status_request args review_id
        :: Out (Py.cr ++ Py.times " " len ++ Py.cr ++ line)
        :: Sleep (args_poll_interval args) :: events_of x)%list,
       tick_of x).
Proof.
  intros [(state & Ha & Hterm) [Hi Hnap]]. rewrite Nat.add_0_r in Ha, Hnap.
  destruct (poll_loop_round args review_id w t state Ha) as [line E].
  exists line. intros fuel len. rewrite E, Hterm. cbv zeta.
  erewrite bind_ok by (apply sleep_ok; auto).
  reflexivity.
Qed.

Lemma passes_shift w secs t i :
  passes w secs t (S i) -> passes w secs (napped (called t)) i.
Proof.
  unfold passes, waiting. simpl. now rewrite <- !plus_n_Sm.
Qed.

(** [k] rounds that pass *)
Lemma poll_loop_rounds args review_id w k :
  forall t len,
    (forall i, (i < k)%nat -> passes w (args_poll_interval args) t i) ->
    exists ev len',
      Forall (polling_event args review_id) ev /\
      io_of ev = rounds k (status_request args review_id) (Sleep (args_poll_interval args)) /\
      forall fuel,
        poll_loop (k + fuel) args review_id len w t
        = let x := poll_loop fuel args review_id len' w (later t k k) in
          (result_of x, (ev ++ events_of x)%list, tick_of x).
Proof.
  induction k as [| k IH]; intros t len H.
  - exists [], len. repeat split; auto.
    intros fuel. rewrite later_0. simpl. apply triple_eta.
  - destruct (poll_loop_pass args review_id w t (H 0%nat ltac:(lia))) as [line E].
    destruct (IH (napped (called t)) (String.length line)) as (ev & len' & Hev & Hio & Hrun).
    { intros i Hlt. apply passes_shift. apply H. lia. }
    exists (status_request args review_id
            :: Out (Py.cr ++ Py.times " " len ++ Py.cr ++ line)
            :: Sleep (args_poll_interval args) :: ev), len'.
    split; [| split].
    + apply Forall_cons; [left; reflexivity |].
      apply Forall_cons; [right; right; eexists; reflexivity |].
      apply Forall_cons; [right; left; reflexivity | exact Hev].
    + cbn. now rewrite <- Hio.
    + intros fuel. cbn [Nat.add]. rewrite E. cbv zeta.
      rewrite Hrun. cbv zeta. rewrite later_step. reflexivity.
Qed.

Lemma called_later t k s : called (later t k s) = later t (S k) s.
Proof. unfold called, later. simpl. f_equal. lia. Qed.

(** C3: when the first [k] answers of the service are not terminal, each
    followed by a sleep of the polling interval that lasts, and the next
    answer is done or error, the polling loop returns after exactly
    [k + 1] status requests, every one without a format parameter, with
    exactly one sleep of the polling interval between two consecutive
    requests; the request answered by the terminal state is the last
    thing it does besides printing that status line and a newline.  With
    a terminal first answer ([k = 0]) this holds for every interval. *)
Theorem poll_stops_at_first_terminal :
  forall (args : Args) (review_id : value) (w : World) (t : Tick)
         (k fuel : nat) (state : value),
    (forall i, (i < k)%nat -> passes w (args_poll_interval args) t i) ->
    answers w (calls t + k) state ->
    terminal state = true ->
    (k < fuel)%nat ->
    exists (pre : list event) (line : string),
      poll fuel args review_id w t
      = (Ok tt,
         (pre ++ [status_request args review_id; Out (Py.cr ++ line); Out Py.nl])%list,
         later t (S k) k) /\
      Forall (polling_event args review_id) pre /\
      io_of (pre ++ [status_request args review_id; Out (Py.cr ++ line); Out Py.nl])
      = (rounds k (status_request args review_id) (Sleep (args_poll_interval args))
         ++ [status_request args review_id])%list.
Proof.
  intros args review_id w t k fuel state Hpass Hans Hterm Hfuel.
  destruct (poll_loop_rounds args review_id w k t 0 Hpass)
    as (pre & len & Hpre & Hio & Hrun).
  destruct (poll_loop_round args review_id w (later t k k) state Hans) as [line Hlast].
  exists pre, (Py.times " " len ++ Py.cr ++ line).
  replace fuel with (k + S (fuel - S k))%nat by lia.
  split; [| split]; auto.
  - unfold poll, except_KeyboardInterrupt.
    rewrite Hrun. cbv zeta. rewrite Hlast, Hterm. cbv zeta.
    cbn. now rewrite called_later.
  - unfold io_of in *. rewrite filter_app, Hio. reflexivity.
Qed.

Lemma poll_loop_interrupted_call args review_id w t fuel len :
  net w (calls t) = Interrupt ->
  poll_loop (S fuel) args review_id len w t
  = (Raise KeyboardInterrupt, [status_request args review_id], called t).
Proof.
  intros H. cbn [poll_loop]. unfold bind at 1.
  unfold get_review_status, bind, request. now rewrite H.
Qed.

Lemma polling_event_not_fetching args review_id e :
  polling_event args review_id e -> e <> fetching.
Proof.
  intros [-> | [-> | [line ->]]]; discriminate.
Qed.

Lemma interrupted_line_not_fetching review_id : interrupted_line review_id <> fetching.
Proof. discriminate. Qed.

(** C8: Ctrl-C in round [k] of the polling loop, during the status
    request (whatever the interval is) or during the sleep, ends the run
    with exit code 1; the last
    line printed is "Interrupted by user. Review ID: " with the review
    id, everything before it is a status request, a sleep or a status
    line, "Fetching review results..." is never printed, and the
    [k + 1] status requests of the loop are the only HTTP calls made. *)
Theorem interrupt_aborts_polling :
  forall (args : Args) (review_id : value) (w : World) (t : Tick) (k fuel : nat),
    args_no_wait args = false ->
    (forall i, (i < k)%nat -> passes w (args_poll_interval args) t i) ->
    interrupted w (args_poll_interval args) t k ->
    (k < fuel)%nat ->
    exists (pre : list event) (t' : Tick),
      monitor fuel args review_id w t
      = (Exit 1, (pre ++ [interrupted_line review_id])%list, t') /\
      Forall (polling_event args review_id) pre /\
      ~ In fetching (pre ++ [interrupted_line review_id]) /\
      calls t' = (calls t + S k)%nat.
Proof.
  intros args review_id w t k fuel Hwait Hpass Hint Hfuel.
  destruct (poll_loop_rounds args review_id w k t 0 Hpass)
    as (pre & len & Hpre & Hio & Hrun).
  assert (Hnot : forall ev, Forall (polling_event args review_id) ev ->
                            ~ In fetching (ev ++ [interrupted_line review_id])).
  { intros ev Hev Hin. apply in_app_or in Hin. destruct Hin as [Hin | [Hin | []]].
    - rewrite Forall_forall in Hev.
      exact (polling_event_not_fetching _ _ _ (Hev _ Hin) eq_refl).
    - exact (interrupted_line_not_fetching _ Hin). }
  replace fuel with (k + S (fuel - S k))%nat by lia.
  unfold monitor. rewrite Hwait.
  destruct Hint as [Hcall | [(state & Hans & Hterm) [Hi Hnap]]].
  - exists (pre ++ [status_request args review_id])%list, (called (later t k k)).
    assert (Hall : Forall (polling_event args review_id)
                          (pre ++ [status_request args review_id])).
    { apply Forall_app. split; auto. constructor; [now left | constructor]. }
    repeat split; auto.
    + apply bind_exit. unfold poll, except_KeyboardInterrupt.
      rewrite Hrun. cbv zeta.
      rewrite (poll_loop_interrupted_call args review_id w (later t k k) _ _ Hcall).
      reflexivity.
    + cbn. lia.
  - destruct (poll_loop_round args review_id w (later t k k) state Hans) as [line Hlast].
    exists (pre ++ [status_request args review_id;
                    Out (Py.cr ++ Py.times " " len ++ Py.cr ++ line);
                    Sleep (args_poll_interval args)])%list,
           (napped (called (later t k k))).
    assert (Hall : Forall (polling_event args review_id)
                     (pre ++ [status_request args review_id;
                              Out (Py.cr ++ Py.times " " len ++ Py.cr ++ line);
                              Sleep (args_poll_interval args)])).
    { apply Forall_app. split; auto.
      apply Forall_cons; [left; reflexivity |].
      apply Forall_cons; [right; right; eexists; reflexivity |].
      apply Forall_cons; [right; left; reflexivity | constructor]. }
    repeat split; auto.
    + apply bind_exit. unfold poll, except_KeyboardInterrupt.
      rewrite Hrun. cbv zeta. rewrite Hlast, Hterm. cbv zeta.
      erewrite bind_raise by (apply sleep_interrupted; auto).
      reflexivity.
    + cbn. lia.
Qed.

Lemma sleepable_5 : sleepable 5.
Proof. unfold sleepable, max_sleep. lia. Qed.

Lemma slow_service_passes i : (i < 2)%nat -> passes slow_service 5 start i.
Proof.
  intros H. split; [| split; [exact sleepable_5 | reflexivity]].
  exists (JStr "queued"). split; [| reflexivity].
  exists [("status", JStr "queued"); ("queue-len", JInt 3)],
         "Status: queued (patches ahead: 3)".
  destruct i as [| [| i]]; [repeat split .. | lia].
Qed.

Lemma poll_stops_at_first_terminal_witness :
  exists (pre : list event) (line : string),
    poll 3 (check_args false) (JStr "abc-123-def") slow_service start
    = (Ok tt,
       (pre ++ [status_request (check_args false) (JStr "abc-123-def");
                Out (Py.cr ++ line); Out Py.nl])%list,
       later start 3 2) /\
    Forall (polling_event (check_args false) (JStr "abc-123-def")) pre /\
    io_of (pre ++ [status_request (check_args false) (JStr "abc-123-def");
                   Out (Py.cr ++ line); Out Py.nl])
    = (rounds 2 (status_request (check_args false) (JStr "abc-123-def")) (Sleep 5)
       ++ [status_request (check_args false) (JStr "abc-123-def")])%list.
Proof.
  apply (poll_stops_at_first_terminal (check_args false) (JStr "abc-123-def")
           slow_service start 2 3 (JStr "done")).
  - exact slow_service_passes.
  - exists [("status", JStr "done"); ("patch_count", JInt 2)],
           "Status: done (2 patches reviewed)".
    repeat split.
  - reflexivity.
  - lia.
Defined.

Lemma impatient_user_passes i : (i < 1)%nat -> passes impatient_user 5 start i.
Proof.
  intros H. assert (i = 0)%nat as -> by lia.
  split; [| split; [exact sleepable_5 | reflexivity]].
  exists (JStr "queued"). split; [| reflexivity].
  exists [("status", JStr "queued"); ("queue-len", JInt 3)],
         "Status: queued (patches ahead: 3)".
  repeat split.
Qed.

Lemma interrupt_aborts_polling_witness :
  exists (pre : list event) (t' : Tick),
    monitor 5 (check_args false) (JStr "abc-123-def") impatient_user start
    = (Exit 1, (pre ++ [interrupted_line (JStr "abc-123-def")])%list, t') /\
    Forall (polling_event (check_args false) (JStr "abc-123-def")) pre /\
    ~ In fetching (pre ++ [interrupted_line (JStr "abc-123-def")]) /\
    calls t' = (calls start + 2)%nat.
Proof.
  apply (interrupt_aborts_polling (check_args false) (JStr "abc-123-def")
           impatient_user start 1 5).
  - reflexivity.
  - exact impatient_user_passes.
  - right. split; [| split; [exact sleepable_5 | reflexivity]].
    exists (JStr "queued"). split; [| reflexivity].
    exists [("status", JStr "queued"); ("queue-len", JInt 3)],
           "Status: queued (patches ahead: 3)".
    repeat split.
  - lia.
Defined.

(** ** What a computation can emit *)

Section Emits.
Variable P : event -> Prop.

Lemma emits_ret {A} (a : A) : emits P (ret a).
Proof. intros w t. constructor. Qed.

Lemma emits_raise {A} e : emits P (@raise A e).
Proof. intros w t. constructor. Qed.

Lemma emits_exit {A} c : emits P (@sys_exit A c).
Proof. intros w t. constructor. Qed.

Lemma emits_out_of_fuel {A} : emits P (@out_of_fuel A).
Proof. intros w t. constructor. Qed.

Lemma emits_emit e : P e -> emits P (emit e).
Proof. intros H w t. now repeat constructor. Qed.

Lemma emits_request e : P e -> emits P (request e).
Proof. intros H w t. now repeat constructor. Qed.

Lemma emits_read_file path : P (ReadFile path) -> emits P (read_file path).
Proof. intros H w t. now repeat constructor. Qed.

Lemma emits_sleep secs : P (Sleep secs) -> emits P (sleep secs).
Proof.
  intros H w t. unfold sleep.
  destruct ((secs <? - max_sleep) || (max_sleep <? secs)); [constructor |].
  destruct (secs <? 0); now repeat constructor.
Qed.

Lemma emits_quiet {A} (m : M A) : quiet m -> emits P m.
Proof.
  intros Q w t. destruct (Q w w t t eq_refl) as [r [E _]]. rewrite E. constructor.
Qed.

Lemma emits_bind {A B} (m : M A) (k : A -> M B) :
  emits P m -> (forall a, emits P (k a)) -> emits P (bind m k).
Proof.
  intros Hm Hk w t. specialize (Hm w t). unfold bind.
  destruct (m w t) as [[[a | c | e |] ev] t']; auto.
  specialize (Hk a w t'). destruct (k a w t') as [[r ev'] t''].
  apply Forall_app. split; assumption.
Qed.

Lemma emits_if {A} (b : bool) (m1 m2 : M A) :
  emits P m1 -> emits P m2 -> emits P (if b then m1 else m2).
Proof. now destruct b. Qed.

Lemma emits_except {A} (body handler : M A) :
  emits P body -> emits P handler -> emits P (except_KeyboardInterrupt body handler).
Proof.
  intros Hb Hh w t. specialize (Hb w t). unfold except_KeyboardInterrupt.
  destruct (body w t) as [[[a | c | e |] ev] t']; auto.
  destruct e; auto.
  specialize (Hh w t'). destruct (handler w t') as [[r ev'] t''].
  apply Forall_app. split; assumption.
Qed.
End Emits.

Lemma emits_impl {A} (P Q : event -> Prop) (m : M A) :
  (forall e, P e -> Q e) -> emits P m -> emits Q m.
Proof. intros H Hm w t. eapply Forall_impl; [exact H | apply Hm]. Qed.

Ltac emits_step :=
  first [ apply emits_ret | apply emits_raise | apply emits_exit
        | apply emits_out_of_fuel
        | apply emits_emit; exact I
        | apply emits_request; exact I
        | apply emits_sleep; exact I
        | apply emits_read_file; exact I
        | apply emits_quiet; auto with quiet; fail
        | apply emits_if
        | apply emits_bind; [| intros ?] ].

Lemma benign_get_review_status url token review_id fmt :
  emits benign (get_review_status url token review_id fmt).
Proof.
  unfold get_review_status, eprint.
  apply emits_bind; [emits_step | intros [data | e | e |]]; repeat emits_step.
Qed.

Lemma benign_print_sections items : forall i patch_count,
  emits benign (print_sections i items patch_count).
Proof.
  induction items as [| review rest IH]; intros i patch_count; simpl.
  - emits_step.
  - apply emits_bind; [| intros _; apply IH].
    unfold print_section, print.
    repeat emits_step.
    destruct review; repeat emits_step.
Qed.

Lemma benign_print_reviews reviews patch_count :
  emits benign (print_reviews reviews patch_count).
Proof.
  unfold print_reviews, iterate.
  apply emits_bind; [destruct (items_of reviews); emits_step |].
  intros items. apply benign_print_sections.
Qed.

Lemma benign_results_once args review_id : emits benign (results_once args review_id).
Proof.
  unfold results_once, print.
  repeat first [ apply benign_get_review_status | apply benign_print_reviews
               | emits_step ].
Qed.

Lemma benign_results_final args review_id : emits benign (results_final args review_id).
Proof.
  unfold results_final, print.
  repeat first [ apply benign_get_review_status | apply benign_print_reviews
               | emits_step ].
Qed.

Lemma benign_check_once args review_id : emits benign (check_once args review_id).
Proof.
  unfold check_once, print.
  repeat first [ apply benign_get_review_status | apply benign_results_once
               | apply emits_quiet; apply quiet_format_status_line
               | emits_step ].
Qed.

Lemma benign_poll_loop fuel args review_id : forall len,
  emits benign (poll_loop fuel args review_id len).
Proof.
  induction fuel as [| fuel IH]; intros len; simpl.
  - emits_step.
  - unfold print.
    repeat first [ apply benign_get_review_status | apply IH
                 | apply emits_quiet; apply quiet_format_status_line
                 | emits_step ].
Qed.

Lemma benign_monitor fuel args review_id : emits benign (monitor fuel args review_id).
Proof.
  unfold monitor, poll, print.
  repeat first [ apply benign_check_once | apply benign_results_final
               | apply benign_poll_loop | apply emits_except
               | emits_step ].
Qed.

(** ** The modes of the command line *)

Lemma validate_existing args :
  given (args_review_id args) = true ->
  exists id, args_review_id args = Some id /\
             forall w t, validate args w t = (Ok (Existing id), [], t).
Proof.
  intros H. unfold validate. rewrite H.
  destruct (args_review_id args) as [id |]; [| discriminate].
  now exists id.
Qed.

(** the loop reads the url, the token and the interval of the command line,
    nothing else *)
Lemma poll_loop_fields fuel args args' review_id :
  args_url args = args_url args' ->
  args_token args = args_token args' ->
  args_poll_interval args = args_poll_interval args' ->
  forall len w t,
    poll_loop fuel args review_id len w t = poll_loop fuel args' review_id len w t.
Proof.
  intros Hu Ht Hp. induction fuel as [| fuel IH]; intros len w t; [reflexivity |].
  cbn [poll_loop]. rewrite Hu, Ht, Hp.
  apply bind_ext; intros status w1 t1.
  apply bind_ext; intros line w2 t2.
  apply bind_ext; intros _ w3 t3.
  apply bind_ext; intros state w4 t4.
  destruct (terminal state); [reflexivity |].
  apply bind_ext; intros _ w5 t5. apply IH.
Qed.

Lemma monitor_without_submission fuel args review_id w t :
  monitor fuel (without_submission args) review_id w t = monitor fuel args review_id w t.
Proof.
  unfold monitor. cbn [without_submission args_no_wait].
  destruct (args_no_wait args); [reflexivity |].
  unfold bind, poll, except_KeyboardInterrupt.
  now rewrite (poll_loop_fields fuel (without_submission args) args review_id
                 eq_refl eq_refl eq_refl).
Qed.

(** C6, as the code has it: a non-empty --review-id takes precedence over
    the submission inputs.  Patch files, --pw-series, --tree and --branch
    given with it are ignored: the run is the run of the same command line
    without them, it starts with "Checking review: " and the id, and it
    reports no usage error, reads no file and posts nothing. *)
Theorem review_id_overrides_submission_inputs :
  forall (fuel : nat) (args : Args) (w : World) (t : Tick),
    given (args_review_id args) = true ->
    main fuel args w t = main fuel (without_submission args) w t /\
    Forall checks_only (events_of (main fuel args w t)) /\
    exists id rest,
      args_review_id args = Some id /\
      events_of (main fuel args w t) = Out ("Checking review: " ++ id ++ Py.nl) :: rest.
Proof.
  intros fuel args w t H.
  destruct (validate_existing args H) as (id & Hid & Hval).
  assert (Hval' : forall w t, validate (without_submission args) w t
                              = (Ok (Existing id), [], t)).
  { intros w' t'. unfold validate. cbn [without_submission args_review_id].
    now rewrite H, Hid. }
  assert (Hmain : main fuel args w t
                  = (bind (print ("Checking review: " ++ id))
                          (fun _ => monitor fuel args (JStr id))) w t).
  { unfold main. erewrite bind_ok by apply Hval.
    cbv beta iota. cbn [app]. symmetry. apply triple_eta. }
  split; [| split].
  - rewrite Hmain. unfold main. erewrite (bind_ok (validate _)) by apply Hval'.
    cbv beta iota. cbn [app]. rewrite <- triple_eta.
    apply bind_ext. intros _ w' t'. symmetry. apply monitor_without_submission.
  - rewrite Hmain.
    apply (emits_impl benign checks_only).
    + intros [] Hb; try exact I; destruct Hb.
    + unfold print. apply emits_bind; [emits_step | intros _; apply benign_monitor].
  - exists id. rewrite Hmain. unfold bind at 1. cbn [print emit].
    destruct (monitor fuel args (JStr id) w t) as [[r ev] t'].
    exists ev. split; [assumption | reflexivity].
Qed.

Lemma review_id_overrides_submission_inputs_witness :
  main 1 mixed_args slow_service start
  = main 1 (without_submission mixed_args) slow_service start /\
  Forall checks_only (events_of (main 1 mixed_args slow_service start)) /\
  exists id rest,
    args_review_id mixed_args = Some id /\
    events_of (main 1 mixed_args slow_service start)
    = Out ("Checking review: " ++ id ++ Py.nl) :: rest.
Proof.
  apply (review_id_overrides_submission_inputs 1 mixed_args slow_service start).
  reflexivity.
Defined.

(** C6, as the spec words it, fails: --review-id with a patch file and a
    series id is not rejected; the status is requested and the run ends
    with success. *)
Lemma review_id_with_inputs_not_rejected :
  ~ (forall (fuel : nat) (args : Args) (w : World),
        given (args_review_id args) = true ->
        args_pw_series args <> None \/ args_patches args <> [] ->
        exists code msg, run w fuel args = (Exit code, [Usage msg])).
Proof.
  intros H.
  destruct (H 1%nat mixed_args slow_service) as (code & msg & E).
  - reflexivity.
  - left. discriminate.
  - vm_compute in E. discriminate E.
Qed.








(** C2, where the code departs from it: with --pw-series 0 and a patch
    file both inputs are on the command line, but the test of line 257
    takes the series id 0 for no series id; the run is not rejected, the
    patch file is read and posted.  With any other series id, here 5, the
    same command line is rejected with a usage error before any I/O. *)
Theorem zero_series_with_patches_submitted :
  run accepting_service 1 (submit_args (Some 0) ["0001-fix.patch"])
  = (Ok tt,
     [Out ("Reading 1 patch file(s)..." ++ Py.nl);
      ReadFile "0001-fix.patch";
      Out ("Submitting to netdev/net-next..." ++ Py.nl);
      Post "https://example.com/air/api/review"
           (JObj [("token", JStr "mytoken"); ("tree", JStr "netdev/net-next");
                  ("patches", JList [JStr "diff --git a/f b/f"])]);
      Out ("Review ID: r-1" ++ Py.nl);
      Out ("Submission complete (--no-wait specified)" ++ Py.nl)])
  /\
  run accepting_service 1 (submit_args (Some 5) ["0001-fix.patch"])
  = (Exit 2, [Usage "Cannot specify both --pw-series and patch files"]).
Proof. split; reflexivity. Qed.

(** ** Failures of the status request *)

Lemma get_review_status_failed url token review_id fmt e w t :
  net w (calls t) = Failed e ->
  get_review_status url token review_id fmt w t
  = (Exit 1,
     [Get (api_url url) (query token review_id fmt);
      ErrOut ("Error querying review status: " ++ e ++ Py.nl)],
     called t).
Proof.
  intros H. unfold get_review_status, bind, request. rewrite H. reflexivity.
Qed.

Lemma get_review_status_not_json url token review_id fmt e w t :
  net w (calls t) = NotJson e ->
  get_review_status url token review_id fmt w t
  = (Exit 1,
     [Get (api_url url) (query token review_id fmt);
      ErrOut ("Error parsing response: " ++ e ++ Py.nl)],
     called t).
Proof.
  intros H. unfold get_review_status, bind, request. rewrite H. reflexivity.
Qed.

(** C7, where the code departs from it: the service answers the status
    request with a JSON object without the field [status];
    [get_review_status] returns it as it is, and the run ends with the
    KeyError of [status['status']], which nothing catches, where
    [submit_review] reports a missing [review_id] and exits with code 1. *)
Theorem missing_status_field_uncaught :
  run empty_reply 1 (check_args true)
  = (Raise (KeyError "status"),
     [Out ("Checking review: abc-123-def" ++ Py.nl);
      status_request (check_args true) (JStr "abc-123-def")])
  /\ run empty_reply 1 (check_args false)
     = (Raise (KeyError "status"),
        [Out ("Checking review: abc-123-def" ++ Py.nl);
         status_request (check_args false) (JStr "abc-123-def")])
  /\ submit_review "https://example.com/air" "mytoken" "netdev/net-next" None
                   (Some ["diff"]) None empty_reply start
     = (Exit 1,
        [Post "https://example.com/air/api/review"
              (JObj [("token", JStr "mytoken"); ("tree", JStr "netdev/net-next");
                     ("patches", JList [JStr "diff"])]);
         ErrOut ("Error parsing response: 'review_id'" ++ Py.nl)],
        called start).
Proof. repeat split. Qed.


(** ** Further properties *)

(** *** The service URL *)

Lemma rstrip_slash_snoc s : Py.rstrip_slash (s ++ "/") = Py.rstrip_slash s.
Proof.
  induction s as [| a r IH]; [reflexivity |].
  cbn [append Py.rstrip_slash]. now rewrite IH.
Qed.

Lemma append_slash_times s n : s ++ Py.times "/" (S n) = (s ++ "/") ++ Py.times "/" n.
Proof.
  induction s as [| a r IH]; [reflexivity |].
  cbn [append]. f_equal. exact IH.
Qed.

Lemma rstrip_slash_times n : forall s,
  Py.rstrip_slash (s ++ Py.times "/" n) = Py.rstrip_slash s.
Proof.
  induction n as [| n IH]; intros s.
  - cbn [Py.times]. f_equal. induction s as [| a r IHs]; [reflexivity |].
    cbn [append]. now rewrite IHs.
  - rewrite append_slash_times, IH. apply rstrip_slash_snoc.
Qed.

Lemma rstrip_slash_split s :
  exists n, s = Py.rstrip_slash s ++ Py.times "/" n.
Proof.
  induction s as [| a r [n IH]].
  - now exists 0%nat.
  - cbn [Py.rstrip_slash].
    destruct (Py.rstrip_slash r) as [| b r'] eqn:E.
    + destruct (Ascii.eqb_spec a "/") as [-> | Hneq].
      * exists (S n). cbn [append Py.times]. f_equal. exact IH.
      * exists n. cbn [append]. f_equal. exact IH.
    + exists n. cbn [append]. f_equal. exact IH.
Qed.

Lemma rstrip_slash_no_slash s : forall r, Py.rstrip_slash s <> r ++ "/".
Proof.
  induction s as [| a s IH]; intros r.
  - destruct r; discriminate.
  - cbn [Py.rstrip_slash].
    destruct (Py.rstrip_slash s) as [| b r2] eqn:E.
    + destruct (Ascii.eqb_spec a "/") as [-> | Hneq].
      * destruct r; discriminate.
      * destruct r as [| c [| c' r']]; cbn [append]; try discriminate.
        intros H. injection H as H. now apply Hneq.
    + destruct r as [| c r']; cbn [append].
      * discriminate.
      * intros H. injection H as _ H. exact (IH r' H).
Qed.

(** X1: the API address is the service URL without its trailing slashes,
    followed by "/api/review": the URL is a base that does not end with a
    slash, followed by slashes only, and the address is that base with
    "/api/review" appended; so URLs that differ by trailing slashes give
    the same address. *)
Theorem api_url_ignores_trailing_slashes :
  forall (url : string) (n : nat),
    (exists base m,
        url = base ++ Py.times "/" m /\
        (forall r, base <> r ++ "/") /\
        api_url url = base ++ "/api/review") /\
    api_url (url ++ Py.times "/" n) = api_url url.
Proof.
  intros url n. split.
  - destruct (rstrip_slash_split url) as [m E].
    exists (Py.rstrip_slash url), m. repeat split.
    + exact E.
    + apply rstrip_slash_no_slash.
  - unfold api_url. now rewrite rstrip_slash_times.
Qed.

(** *** Reading the patch files *)

Lemma read_patch_files_readable patch_files w : forall t,
  Forall (readable w) patch_files ->
  read_patch_files patch_files w t
  = (Ok (map (fun path => text_of (files w path)) patch_files),
     map ReadFile patch_files, t).
Proof.
  induction patch_files as [| path rest IH]; intros t H; [reflexivity |].
  inversion H as [| ? ? [text Hp] Hrest]; subst.
  cbn [read_patch_files map]. unfold bind at 1, read_file. rewrite Hp.
  unfold bind. rewrite (IH t Hrest). cbn. now rewrite app_nil_r.
Qed.

Lemma read_patch_files_stops good w : forall bad rest t,
  Forall (readable w) good ->
  ~ readable w bad ->
  read_patch_files (good ++ bad :: rest) w t
  = (Exit 1,
     (map ReadFile good
        ++ [ReadFile bad; ErrOut (read_error bad (files w bad) ++ Py.nl)])%list,
     t).
Proof.
  induction good as [| path good IH]; intros bad rest t Hgood Hbad.
  - cbn [app read_patch_files map]. unfold bind at 1, read_file.
    unfold readable in Hbad.
    destruct (files w bad) as [text | | e].
    + exfalso. apply Hbad. now exists text.
    + reflexivity.
    + reflexivity.
  - inversion Hgood as [| ? ? [text Hp] Hrest]; subst.
    cbn [app read_patch_files map]. unfold bind at 1, read_file. rewrite Hp.
    unfold bind. rewrite (IH bad rest t Hrest Hbad). reflexivity.
Qed.

(** X2: when every patch file can be read, [read_patch_files] returns
    their contents in the order of the command line, opens each path once
    in that order, and writes nothing. *)
Theorem read_patch_files_in_order :
  forall (patch_files : list string) (w : World) (t : Tick),
    Forall (readable w) patch_files ->
    read_patch_files patch_files w t
    = (Ok (map (fun path => text_of (files w path)) patch_files),
       map ReadFile patch_files, t).
Proof. intros patch_files w t H. now apply read_patch_files_readable. Qed.

Lemma read_patch_files_in_order_witness :
  read_patch_files ["a.patch"; "b.patch"] accepting_service start
  = (Ok ["diff --git a/f b/f"; "diff --git a/f b/f"],
     [ReadFile "a.patch"; ReadFile "b.patch"], start).
Proof.
  apply (read_patch_files_in_order ["a.patch"; "b.patch"] accepting_service start).
  repeat constructor; now exists "diff --git a/f b/f".
Defined.

(** X3: the first patch file that is missing or cannot be read ends the
    run with exit code 1: the files before it have been read, the error
    on stderr names the offending path, and the files after it are never
    opened. *)
Theorem read_patch_files_first_failure :
  forall (good : list string) (bad : string) (rest : list string)
         (w : World) (t : Tick),
    Forall (readable w) good ->
    ~ readable w bad ->
    read_patch_files (good ++ bad :: rest) w t
    = (Exit 1,
       (map ReadFile good
          ++ [ReadFile bad; ErrOut (read_error bad (files w bad) ++ Py.nl)])%list,
       t).
Proof. intros good bad rest w t Hg Hb. now apply read_patch_files_stops. Qed.

Lemma read_patch_files_first_failure_witness :
  read_patch_files ([] ++ "0001-fix.patch" :: ["0002-feat.patch"]) slow_service start
  = (Exit 1,
     [ReadFile "0001-fix.patch";
      ErrOut ("Error: Patch file not found: 0001-fix.patch" ++ Py.nl)],
     start).
Proof.
  apply (read_patch_files_first_failure [] "0001-fix.patch" ["0002-feat.patch"]
           slow_service start).
  - constructor.
  - intros [text H]. discriminate H.
Defined.

(** *** The status formatter, again *)


(** *** The two requests *)

(** X5: given patches or a non-zero series id, [submit_review] issues
    exactly one POST to the API address and never a second one.  The body
    has the token and the tree, the patches when there are any and the
    series id only when there are none (patches take precedence), and the
    branch only when it is a non-empty string.  A reply with a
    [review_id] returns it; a reply without it, a body that is not JSON
    and a transport failure each print an error on stderr and exit with
    code 1; a JSON body that is not an object raises a TypeError that is
    not caught. *)
Theorem submit_review_one_post :
  forall (url token tree : string) (branch : option string)
         (patches : option (list string)) (patchwork_series_id : option Z)
         (w : World) (t : Tick),
    given_list patches || given_int patchwork_series_id = true ->
    exists payload,
      Py.lookup "token" payload = Some (JStr token) /\
      Py.lookup "tree" payload = Some (JStr tree) /\
      Py.lookup "patches" payload
      = (if given_list patches then Some (patches_json patches) else None) /\
      Py.lookup "patchwork_series_id" payload
      = (if given_list patches then None else option_map JInt patchwork_series_id) /\
      Py.lookup "branch" payload
      = (if given branch then option_map JStr branch else None) /\
      submit_review url token tree branch patches patchwork_series_id w t
      = (submit_outcome (Post (api_url url) (JObj payload)) (net w (calls t)),
         called t).
Proof.
  intros url token tree branch patches pw w t Hin.
  exists ([("token", JStr token); ("tree", JStr tree)]
            ++ (if given_list patches
                then [("patches", patches_json patches)]
                else [("patchwork_series_id",
                       JInt (match pw with Some z => z | None => 0 end))])
            ++ (if given branch
                then [("branch", JStr (match branch with Some b => b | None => "" end))]
                else []))%list.
  unfold submit_review.
  destruct (given_list patches) eqn:Hp;
    [| destruct (given_int pw) eqn:Hs;
       [destruct pw as [z |]; [| discriminate Hs] | discriminate Hin]];
    (destruct (given branch) eqn:Hb;
     [destruct branch as [b |]; [| discriminate Hb] |]);
    (repeat split; try reflexivity);
    unfold bind, request, submit_outcome, eprint, emit, sys_exit, ret, raise;
    cbn -[Py.nl];
    (destruct (net w (calls t)) as [[| | | | | | data] | e | e |];
     try (destruct (Py.lookup "review_id" data));
     reflexivity).
Qed.

Lemma submit_review_one_post_witness :
  exists payload,
    Py.lookup "token" payload = Some (JStr "mytoken") /\
    Py.lookup "tree" payload = Some (JStr "netdev/net-next") /\
    Py.lookup "patches" payload = Some (JList [JStr "diff"]) /\
    Py.lookup "patchwork_series_id" payload = None /\
    Py.lookup "branch" payload = None /\
    submit_review "https://example.com/air" "mytoken" "netdev/net-next" (Some "")
                  (Some ["diff"]) (Some 1026553) accepting_service start
    = (Ok (JStr "r-1"),
       [Post "https://example.com/air/api/review" (JObj payload)], called start).
Proof.
  apply (submit_review_one_post "https://example.com/air" "mytoken" "netdev/net-next"
           (Some "") (Some ["diff"]) (Some 1026553) accepting_service start).
  reflexivity.
Defined.

(** X6: [get_review_status] issues exactly one GET to the API address,
    with the id and the token and with [format] only when it is a
    non-empty string.  Any JSON body is returned as it is, without a look
    at its fields; a transport failure and a body that is not JSON each
    print an error on stderr and exit with code 1, without a retry. *)
Theorem get_review_status_one_get :
  forall (url token : string) (review_id : value) (fmt : option string)
         (w : World) (t : Tick),
    exists params,
      Py.lookup "id" params = Some review_id /\
      Py.lookup "token" params = Some (JStr token) /\
      Py.lookup "format" params = (if given fmt then option_map JStr fmt else None) /\
      get_review_status url token review_id fmt w t
      = (status_outcome (Get (api_url url) params) (net w (calls t)), called t).
Proof.
  intros url token review_id fmt w t.
  exists (query token review_id fmt). unfold query.
  destruct (given fmt) eqn:Hf; [destruct fmt as [f |]; [| discriminate Hf] |];
    (repeat split; [reflexivity .. |]);
    unfold get_review_status, query, bind, request, status_outcome, eprint, emit,
      sys_exit, ret, raise;
    rewrite ?Hf; cbn -[Py.nl];
    destruct (net w (calls t)); reflexivity.
Qed.

(** *** Interrupts and failures around the loop *)

(** X7: Ctrl-C is handled in the polling loop only.  During the single
    status request of --no-wait, during the request for the results and
    during the submission, the KeyboardInterrupt leaves [main] uncaught:
    no "Interrupted by user" line, no [sys.exit]. *)
Theorem interrupt_outside_loop_uncaught :
  forall (args : Args) (review_id : value) (w : World) (t : Tick),
    net w (calls t) = Interrupt ->
    check_once args review_id w t
    = (Raise KeyboardInterrupt, [status_request args review_id], called t) /\
    results_once args review_id w t
    = (Raise KeyboardInterrupt, [fetching; results_request args review_id], called t) /\
    results_final args review_id w t
    = (Raise KeyboardInterrupt, [fetching; results_request args review_id], called t) /\
    (args_no_wait args = true ->
     forall fuel, monitor fuel args review_id w t
                  = (Raise KeyboardInterrupt, [status_request args review_id], called t)).
Proof.
  intros args review_id w t H.
  assert (G : forall fmt,
             get_review_status (args_url args) (args_token args) review_id fmt w t
             = (Raise KeyboardInterrupt,
                [Get (api_url (args_url args)) (query (args_token args) review_id fmt)],
                called t)).
  { intros fmt. unfold get_review_status, bind, request. now rewrite H. }
  assert (C : check_once args review_id w t
              = (Raise KeyboardInterrupt, [status_request args review_id], called t)).
  { unfold check_once. erewrite bind_raise by apply G. reflexivity. }
  repeat split.
  - exact C.
  - unfold results_once, bind at 1. cbn [print emit].
    erewrite bind_raise by apply G. reflexivity.
  - unfold results_final, bind at 1. cbn [print emit].
    erewrite bind_raise by apply G. reflexivity.
  - intros Hnw fuel. unfold monitor. now rewrite Hnw.
Qed.

Lemma interrupt_outside_loop_uncaught_witness :
  check_once (check_args true) (JStr "abc-123-def") hasty_user start
  = (Raise KeyboardInterrupt,
     [status_request (check_args true) (JStr "abc-123-def")], called start).
Proof.
  apply (interrupt_outside_loop_uncaught (check_args true) (JStr "abc-123-def")
           hasty_user start).
  reflexivity.
Defined.

(** X8: a transport failure during polling is fatal at once.  When the
    status request of round [k] fails, the run prints "Error querying
    review status: " with the cause on stderr and exits with code 1; the
    request is not repeated and the results are not fetched. *)
Theorem polling_failure_is_fatal :
  forall (args : Args) (review_id : value) (w : World) (t : Tick)
         (k fuel : nat) (e : string),
    args_no_wait args = false ->
    (forall i, (i < k)%nat -> passes w (args_poll_interval args) t i) ->
    net w (calls t + k) = Failed e ->
    (k < fuel)%nat ->
    exists pre : list event,
      monitor fuel args review_id w t
      = (Exit 1, (pre ++ [status_request args review_id; query_failure e])%list,
         later t (S k) k) /\
      Forall (polling_event args review_id) pre.
Proof.
  intros args review_id w t k fuel e Hwait Hpass Hfail Hfuel.
  destruct (poll_loop_rounds args review_id w k t 0 Hpass)
    as (pre & len & Hpre & Hio & Hrun).
  exists pre. split; [| exact Hpre].
  replace fuel with (k + S (fuel - S k))%nat by lia.
  unfold monitor. rewrite Hwait.
  apply bind_exit. unfold poll, except_KeyboardInterrupt.
  rewrite Hrun. cbv zeta. cbn [poll_loop].
  erewrite bind_exit
    by (apply (get_review_status_failed _ _ _ _ e w (later t k k)); exact Hfail).
  cbn [result_of events_of tick_of fst snd]. now rewrite called_later.
Qed.

Lemma flaky_service_passes i : (i < 1)%nat -> passes flaky_service 5 start i.
Proof.
  intros H. assert (i = 0)%nat as -> by lia.
  split; [| split; [exact sleepable_5 | reflexivity]].
  exists (JStr "queued"). split; [| reflexivity].
  exists [("status", JStr "queued"); ("queue-len", JInt 3)],
         "Status: queued (patches ahead: 3)".
  repeat split.
Qed.

Lemma polling_failure_is_fatal_witness :
  exists pre : list event,
    monitor 4 (polling_args 5) (JStr "abc-123-def") flaky_service start
    = (Exit 1,
       (pre ++ [status_request (polling_args 5) (JStr "abc-123-def");
                query_failure "connection refused"])%list,
       later start 2 1) /\
    Forall (polling_event (polling_args 5) (JStr "abc-123-def")) pre.
Proof.
  apply (polling_failure_is_fatal (polling_args 5) (JStr "abc-123-def")
           flaky_service start 1 4 "connection refused").
  - reflexivity.
  - exact flaky_service_passes.
  - reflexivity.
  - lia.
Defined.

(** X9: a --poll-interval that [time.sleep] does not accept stops the
    polling at the first status that is not terminal, after one status
    request and one status line: a negative interval is a ValueError, one
    beyond 9223372036 seconds either way an OverflowError, and the
    [except KeyboardInterrupt] of the loop catches neither. *)
Theorem negative_interval_raises :
  forall (args : Args) (review_id : value) (w : World) (t : Tick)
         (fuel : nat) (state : value),
    args_no_wait args = false ->
    ~ sleepable (args_poll_interval args) ->
    answers w (calls t) state ->
    terminal state = false ->
    exists line,
      monitor (S fuel) args review_id w t
      = (Raise (if (args_poll_interval args <? - max_sleep)
                   || (max_sleep <? args_poll_interval args)
                then OverflowError else ValueError),
         [status_request args review_id; Out (Py.cr ++ line)],
         called t).
Proof.
  intros args review_id w t fuel state Hwait Hbad Hans Hterm.
  destruct (poll_loop_round args review_id w t state Hans) as [line Hround].
  exists (Py.cr ++ line).
  unfold monitor. rewrite Hwait.
  apply bind_raise. unfold poll, except_KeyboardInterrupt.
  rewrite Hround, Hterm. cbv zeta.
  assert (S : sleep (args_poll_interval args) w (called t)
              = (Raise (if (args_poll_interval args <? - max_sleep)
                           || (max_sleep <? args_poll_interval args)
                        then OverflowError else ValueError), [], called t)).
  { unfold sleep.
    destruct ((args_poll_interval args <? - max_sleep)
              || (max_sleep <? args_poll_interval args)) eqn:E; [reflexivity |].
    apply orb_false_iff in E. destruct E as [E1 E2].
    apply Z.ltb_ge in E1, E2.
    destruct (Z.ltb_spec (args_poll_interval args) 0); [reflexivity |].
    exfalso. apply Hbad. split; assumption. }
  erewrite bind_raise by exact S.
  destruct ((args_poll_interval args <? - max_sleep)
            || (max_sleep <? args_poll_interval args)); reflexivity.
Qed.

Lemma negative_interval_raises_witness :
  exists line,
    monitor 1 (polling_args (-1)) (JStr "abc-123-def") slow_service start
    = (Raise ValueError,
       [status_request (polling_args (-1)) (JStr "abc-123-def"); Out (Py.cr ++ line)],
       called start).
Proof.
  apply (negative_interval_raises (polling_args (-1)) (JStr "abc-123-def")
           slow_service start 0 (JStr "queued")).
  - reflexivity.
  - unfold sleepable. simpl. lia.
  - exists [("status", JStr "queued"); ("queue-len", JInt 3)],
           "Status: queued (patches ahead: 3)".
    repeat split.
  - reflexivity.
Defined.

(** *** The results of a review that did not fail *)

(** X10: when the status fetched with the results is in any state but
    error, the tool ends with success after rendering the reviews.  With
    no review at all, the polling path prints "No reviews available" and
    the --no-wait path prints nothing more; neither treats it as a
    failure. *)
Theorem final_status_without_error :
  forall (args : Args) (review_id : value) (w : World) (t : Tick)
         (d : list (string * value)) (state : value),
    net w (calls t) = Body (JObj d) ->
    Py.lookup "status" d = Some state ->
    Py.eq_str state "error" = false ->
    let reviews := field d "review" (JList []) in
    let patch_count := field d "patch_count" (JInt 0) in
    let asked := [fetching; results_request args review_id] in
    results_final args review_id w t
    = (rendered (tty w) (Ok tt) asked [Out ("No reviews available" ++ Py.nl)]
                reviews patch_count,
       called t) /\
    results_once args review_id w t
    = (rendered (tty w) (Ok tt) asked [] reviews patch_count, called t).
Proof.
  intros args review_id w t d state Hnet Hst Herr reviews patch_count asked.
  unfold rendered. split.
  - unfold results_final.
    unfold bind at 1. cbn [print emit].
    unfold bind at 1. rewrite (get_review_status_body _ _ _ _ _ _ _ Hnet).
    unfold bind at 1. rewrite get_field. fold reviews.
    unfold bind at 1. rewrite get_field. fold patch_count.
    destruct (Py.truthy reviews); cbn [negb].
    + unfold bind at 1. rewrite print_reviews_events.
      destruct (items_of reviews) as [items |]; [| reflexivity].
      unfold bind, subscript. rewrite Hst. cbn [ret]. rewrite Herr.
      cbn. now rewrite app_nil_r.
    + unfold bind, subscript, print, emit. rewrite Hst. cbn [ret]. rewrite Herr.
      reflexivity.
  - unfold results_once.
    unfold bind at 1. cbn [print emit].
    unfold bind at 1. rewrite (get_review_status_body _ _ _ _ _ _ _ Hnet).
    unfold bind at 1. rewrite get_field. fold reviews.
    unfold bind at 1. rewrite get_field. fold patch_count.
    destruct (Py.truthy reviews).
    + unfold bind at 1. rewrite print_reviews_events.
      destruct (items_of reviews) as [items |]; [| reflexivity].
      unfold bind, subscript. rewrite Hst. cbn [ret]. rewrite Herr.
      cbn. now rewrite app_nil_r.
    + unfold bind, subscript, print, emit. rewrite Hst. cbn [ret]. rewrite Herr.
      reflexivity.
Qed.

Lemma final_status_without_error_witness :
  results_final (polling_args 5) (JStr "abc-123-def") finished_review start
  = (Ok tt,
     ([fetching; results_request (polling_args 5) (JStr "abc-123-def")]
        ++ section_of false 1 (JStr "patch 1: fine") (JInt 2)
        ++ section_of false 2 JNull (JInt 2))%list,
     called start)
  /\
  results_once (polling_args 5) (JStr "abc-123-def") finished_review start
  = (Ok tt,
     ([fetching; results_request (polling_args 5) (JStr "abc-123-def")]
        ++ section_of false 1 (JStr "patch 1: fine") (JInt 2)
        ++ section_of false 2 JNull (JInt 2))%list,
     called start).
Proof.
  apply (final_status_without_error (polling_args 5) (JStr "abc-123-def")
           finished_review start
           [("status", JStr "done"); ("patch_count", JInt 2);
            ("review", JList [JStr "patch 1: fine"; JNull])] (JStr "done"));
    reflexivity.
Defined.

(** *** Checking once *)



(** *** Validation *)

(** X12: the validation of [main] does no I/O, and what it lets through
    is well formed: a check has a non-empty review id; a submission has a
    non-empty tree and exactly one of a non-zero series id and a
    non-empty list of patch files. *)
Theorem validate_lets_through :
  forall (args : Args) (w : World) (t : Tick) (m : mode) (ev : list event) (t' : Tick),
    validate args w t = (Ok m, ev, t') ->
    ev = [] /\ t' = t /\
    match m with
    | Existing review_id =>
        args_review_id args = Some review_id /\ review_id <> ""
    | Submission tree =>
        given (args_review_id args) = false /\
        args_tree args = Some tree /\ tree <> "" /\
        xorb (given_int (args_pw_series args)) (negb (is_nil (args_patches args))) = true
    end.
Proof.
  intros args w t m ev t'. unfold validate.
  destruct (given (args_review_id args)) eqn:Hid.
  - destruct (args_review_id args) as [id |]; [| discriminate Hid].
    intros E. injection E as <- <- <-. repeat split.
    intros ->. discriminate Hid.
  - destruct (given (args_tree args)) eqn:Htree; [| discriminate].
    destruct (args_tree args) as [tree |]; [| discriminate Htree].
    destruct (given_int (args_pw_series args)), (is_nil (args_patches args));
      cbn; try discriminate;
      intros E; injection E as <- <- <-; repeat split;
      intros ->; discriminate Htree.
Qed.

Lemma validate_lets_through_witness :
  [] = @nil event /\ start = start /\
  given (args_review_id (submit_args (Some 1026553) [])) = false /\
  args_tree (submit_args (Some 1026553) []) = Some "netdev/net-next" /\
  "netdev/net-next" <> "" /\
  xorb (given_int (args_pw_series (submit_args (Some 1026553) [])))
       (negb (is_nil (args_patches (submit_args (Some 1026553) [])))) = true.
Proof.
  apply (validate_lets_through (submit_args (Some 1026553) []) slow_service start
           (Submission "netdev/net-next") [] start).
  reflexivity.
Defined.

(** *** What a run does and does not do *)

Lemma emits_bind_dep {A B} (P : event -> Prop) (m : M A) (k : A -> M B) w t :
  Forall P (events_of (m w t)) ->
  (forall a ev t', m w t = (Ok a, ev, t') -> Forall P (events_of (k a w t'))) ->
  Forall P (events_of (bind m k w t)).
Proof.
  intros Hm Hk. unfold bind.
  destruct (m w t) as [[[a | c | e |] ev] t']; auto.
  specialize (Hk a ev t' eq_refl). destruct (k a w t') as [[r ev'] t''].
  apply Forall_app. split; assumption.
Qed.

Section MonitorEvents.
Variables (P : event -> Prop) (args : Args).
Hypothesis P_out : forall text, P (Out text).
Hypothesis P_err : forall text, P (ErrOut text).
Hypothesis P_get : forall review_id fmt,
  P (Get (api_url (args_url args)) (query (args_token args) review_id fmt)).
Hypothesis P_sleep : P (Sleep (args_poll_interval args)).

Ltac monitor_step :=
  first [ apply emits_ret | apply emits_raise | apply emits_exit
        | apply emits_out_of_fuel
        | apply emits_emit; apply P_out
        | apply emits_emit; apply P_err
        | apply emits_request; apply P_get
        | apply emits_sleep; apply P_sleep
        | apply emits_quiet; auto with quiet; fail
        | apply emits_quiet; apply quiet_format_status_line
        | apply emits_if
        | apply emits_except
        | apply emits_bind; [| intros ?] ].

Lemma monitor_get_review_status review_id fmt :
  emits P (get_review_status (args_url args) (args_token args) review_id fmt).
Proof.
  unfold get_review_status, eprint.
  apply emits_bind; [monitor_step | intros [data | e | e |]]; repeat monitor_step.
Qed.

Lemma monitor_print_sections items : forall i patch_count,
  emits P (print_sections i items patch_count).
Proof.
  induction items as [| review rest IH]; intros i patch_count; simpl.
  - monitor_step.
  - apply emits_bind; [| intros _; apply IH].
    unfold print_section, print.
    repeat monitor_step.
    destruct review; repeat monitor_step.
Qed.

Lemma monitor_print_reviews reviews patch_count :
  emits P (print_reviews reviews patch_count).
Proof.
  unfold print_reviews, iterate.
  apply emits_bind; [destruct (items_of reviews); monitor_step |].
  intros items. apply monitor_print_sections.
Qed.

Lemma monitor_poll_loop fuel review_id : forall len,
  emits P (poll_loop fuel args review_id len).
Proof.
  induction fuel as [| fuel IH]; intros len; simpl.
  - monitor_step.
  - unfold print.
    repeat first [ apply monitor_get_review_status | apply IH | monitor_step ].
Qed.

Lemma monitor_events fuel review_id : emits P (monitor fuel args review_id).
Proof.
  unfold monitor, check_once, results_once, results_final, poll, print.
  repeat first [ apply monitor_get_review_status | apply monitor_print_reviews
               | apply monitor_poll_loop | monitor_step ].
Qed.
End MonitorEvents.

Lemma submission_read_patch_files url token patch_files :
  emits (submission_event url token patch_files) (read_patch_files patch_files).
Proof.
  induction patch_files as [| path rest IH]; simpl.
  - emits_step.
  - unfold eprint.
    apply emits_bind; [apply emits_read_file; now left | intros [text | | e]];
      repeat emits_step.
    apply (emits_impl (submission_event url token rest)); [| exact IH].
    intros [] H; try exact H. now right.
Qed.

Lemma submission_submit_review url token tree branch patches patchwork_series_id paths :
  emits (submission_event url token paths)
        (submit_review url token tree branch patches patchwork_series_id).
Proof.
  intros w t. unfold submit_review.
  destruct (given_list patches); [| destruct (given_int patchwork_series_id)];
    destruct (given branch);
    unfold bind, request, eprint, emit, sys_exit, ret, raise; cbn;
    try (repeat constructor; fail);
    (destruct (net w (calls t)) as [[| | | | | | data] | e | e |];
     try (destruct (Py.lookup "review_id" data));
     cbn; repeat constructor).
Qed.

Lemma submission_submit_new args tree :
  emits (submission_event (args_url args) (args_token args) (args_patches args))
        (submit_new args tree).
Proof.
  unfold submit_new, print.
  repeat first [ apply submission_submit_review | apply submission_read_patch_files
               | emits_step ].
Qed.

Lemma submit_new_no_wait args tree w t review_id :
  args_no_wait args = true ->
  result_of (submit_new args tree w t) <> Ok (Some review_id).
Proof.
  intros H. unfold submit_new. rewrite H. unfold bind at 1.
  match goal with
  | |- context [(if ?c then ?a else ?b) w t] =>
      destruct ((if c then a else b) w t) as [[[rid | code | e |] ev] t']
  end; discriminate.
Qed.

Lemma validate_not_existing args w t m ev t' :
  given (args_review_id args) = false ->
  validate args w t = (Ok m, ev, t') ->
  exists tree, m = Submission tree.
Proof.
  intros Hid. unfold validate. rewrite Hid.
  unfold bind at 1.
  match goal with
  | |- context [(if ?c then ?a else ?b) w t] =>
      destruct ((if c then a else b) w t) as [[[[] | code | e |] ev0] t0]
  end; try discriminate.
  unfold bind at 1.
  match goal with
  | |- context [(if ?c then ?a else ?b) w t0] =>
      destruct ((if c then a else b) w t0) as [[[[] | code | e |] ev1] t1]
  end; try discriminate.
  unfold bind at 1.
  match goal with
  | |- context [(if ?c then ?a else ?b) w t1] =>
      destruct ((if c then a else b) w t1) as [[[[] | code | e |] ev2] t2]
  end; try discriminate.
  cbn. intros E. injection E as <- _ _. eauto.
Qed.

(** X13: a run does only what its command line names.  The only files it
    opens are patch files listed on it, every HTTP request goes to the API
    address of --url and carries the token, and every sleep lasts the
    polling interval. *)
Theorem run_does_what_is_asked :
  forall (fuel : nat) (args : Args) (w : World) (t : Tick),
    Forall (expected args) (events_of (main fuel args w t)).
Proof.
  intros fuel args. unfold main.
  assert (Hmon : forall review_id, emits (expected args) (monitor fuel args review_id)).
  { intros review_id. apply monitor_events; try (intros; exact I).
    - intros rid fmt. split; [reflexivity |].
      unfold query. destruct (given fmt); reflexivity.
    - reflexivity. }
  apply emits_bind.
  - unfold validate, parser_error. repeat emits_step.
  - intros [review_id | tree].
    + unfold print. apply emits_bind; [emits_step | intros _; apply Hmon].
    + apply emits_bind; [| intros [review_id |]; [apply Hmon | emits_step]].
      apply (emits_impl (submission_event (args_url args) (args_token args)
                                          (args_patches args)));
        [| apply submission_submit_new].
      intros [| | | | u [] | |] H; try exact H; try exact I; destruct H.
Qed.

(** X14: a new submission with --no-wait never polls: whatever the files
    and the service do, the run requests no status and does not sleep. *)
Theorem no_wait_submission_never_polls :
  forall (fuel : nat) (args : Args) (w : World) (t : Tick),
    given (args_review_id args) = false ->
    args_no_wait args = true ->
    Forall never_polls (events_of (main fuel args w t)).
Proof.
  intros fuel args w t Hid Hnw. unfold main.
  apply emits_bind_dep.
  - assert (H : emits never_polls (validate args))
      by (unfold validate, parser_error; repeat emits_step).
    apply H.
  - intros m ev t' Hval.
    destruct (validate_not_existing args w t m ev t' Hid Hval) as [tree ->].
    apply emits_bind_dep.
    + apply (emits_impl (submission_event (args_url args) (args_token args)
                                          (args_patches args)));
        [| apply submission_submit_new].
      intros [| | | | u [] | |] H; try exact I; destruct H.
    + intros [review_id |] ev1 t1 Hsub; [| constructor].
      exfalso. apply (submit_new_no_wait args tree w t' review_id Hnw).
      now rewrite Hsub.
Qed.

Lemma no_wait_submission_never_polls_witness :
  Forall never_polls
    (events_of (main 3 (submit_args None ["a.patch"; "b.patch"]) accepting_service start)).
Proof.
  apply (no_wait_submission_never_polls 3 (submit_args None ["a.patch"; "b.patch"])
           accepting_service start); reflexivity.
Defined.

(** *** A submission from end to end *)

Lemma string_app_assoc (a b c : string) : (a ++ b) ++ c = a ++ b ++ c.
Proof. induction a as [| x a IH]; [reflexivity |]. cbn [append]. now rewrite IH. Qed.

Lemma after_submission_run args review_id w t :
  (bind (print ("Review ID: " ++ Py.str review_id))
        (fun _ =>
           if args_no_wait args then
             bind (print "Submission complete (--no-wait specified)")
                  (fun _ => ret None)
           else
             bind (print ("Monitoring status (polling every "
                          ++ Py.str_int (args_poll_interval args) ++ "s)..." ++ Py.nl))
                  (fun _ => ret (Some review_id)))) w t
  = (Ok (if args_no_wait args then None else Some review_id),
     if args_no_wait args
     then [Out ("Review ID: " ++ Py.str review_id ++ Py.nl);
           Out ("Submission complete (--no-wait specified)" ++ Py.nl)]
     else [Out ("Review ID: " ++ Py.str review_id ++ Py.nl);
           Out ("Monitoring status (polling every "
                ++ Py.str_int (args_poll_interval args) ++ "s)..." ++ Py.nl ++ Py.nl)],
     t).
Proof.
  unfold bind, print, emit, ret.
  destruct (args_no_wait args); cbn -[append]; rewrite ?string_app_assoc; reflexivity.
Qed.

Ltac flatten_events :=
  rewrite ?app_nil_r; repeat (cbn [app]; rewrite <- app_assoc); cbn [app];
  reflexivity.

Lemma submit_review_accepted url token tree branch patches patchwork_series_id
      w t data review_id :
  given_list patches || given_int patchwork_series_id = true ->
  net w (calls t) = Body (JObj data) ->
  Py.lookup "review_id" data = Some review_id ->
  submit_review url token tree branch patches patchwork_series_id w t
  = (Ok review_id,
     [Post (api_url url)
           (JObj ([("token", JStr token); ("tree", JStr tree)]
                    ++ (if given_list patches
                        then [("patches", patches_json patches)]
                        else [("patchwork_series_id",
                               JInt (match patchwork_series_id with
                                     | Some z => z
                                     | None => 0
                                     end))])
                    ++ (if given branch
                        then [("branch",
                               JStr (match branch with Some b => b | None => "" end))]
                        else []))%list)],
     called t).
Proof.
  intros Hin Hnet Hid. unfold submit_review.
  destruct (given_list patches) eqn:Hp;
    [| destruct (given_int patchwork_series_id) eqn:Hs; [| discriminate Hin]];
    destruct (given branch);
    unfold bind, request, ret; cbn -[Py.nl]; rewrite Hnet; cbn -[Py.nl];
    rewrite Hid; reflexivity.
Qed.

Lemma validate_submission args w t tree :
  given (args_review_id args) = false ->
  args_tree args = Some tree ->
  tree <> "" ->
  xorb (given_int (args_pw_series args)) (negb (is_nil (args_patches args))) = true ->
  validate args w t = (Ok (Submission tree), [], t).
Proof.
  intros Hid Htree Hne Hx. unfold validate. rewrite Hid, Htree.
  assert (given (Some tree) = true) as ->.
  { simpl. apply negb_true_iff. now apply String.eqb_neq. }
  destruct (given_int (args_pw_series args)), (is_nil (args_patches args));
    try discriminate Hx; reflexivity.
Qed.

(** X15: a submission of patch files, from end to end.  With a tree, no
    series id and patch files that can all be read, the tool reads the
    files in the order of the command line and sends one POST whose
    [patches] are their contents in that order, without a series id.
    The review id of the reply is printed, and is the one the tool then
    monitors; with --no-wait the run ends there with success and a single
    HTTP call. *)
Theorem submit_patch_files_end_to_end :
  forall (fuel : nat) (args : Args) (w : World) (t : Tick) (tree : string)
         (data : list (string * value)) (review_id : value),
    given (args_review_id args) = false ->
    args_tree args = Some tree ->
    tree <> "" ->
    given_int (args_pw_series args) = false ->
    args_patches args <> [] ->
    Forall (readable w) (args_patches args) ->
    net w (calls t) = Body (JObj data) ->
    Py.lookup "review_id" data = Some review_id ->
    exists payload,
      Py.lookup "patches" payload
      = Some (JList (map (fun path => JStr (text_of (files w path)))
                         (args_patches args))) /\
      Py.lookup "patchwork_series_id" payload = None /\
      main fuel args w t
      = after_submission fuel args review_id w (called t)
          ([Out ("Reading " ++ Py.str_int (Z.of_nat (length (args_patches args)))
                            ++ " patch file(s)..." ++ Py.nl)]
             ++ map ReadFile (args_patches args)
             ++ [Out ("Submitting to " ++ tree ++ "..." ++ Py.nl);
                 Post (api_url (args_url args)) (JObj payload)])%list.
Proof.
  intros fuel args w t tree data review_id Hid Htree Hne Hpw Hfiles Hread Hnet Hrid.
  set (texts := map (fun path => text_of (files w path)) (args_patches args)).
  assert (Hgiven : given_list (Some texts) = true).
  { unfold texts. destruct (args_patches args); [contradiction | reflexivity]. }
  exists ([("token", JStr (args_token args)); ("tree", JStr tree)]
            ++ [("patches", patches_json (Some texts))]
            ++ (if given (args_branch args)
                then [("branch",
                       JStr (match args_branch args with Some b => b | None => "" end))]
                else []))%list.
  split; [| split].
  - unfold patches_json, texts. rewrite map_map. reflexivity.
  - destruct (given (args_branch args)); reflexivity.
  - unfold main.
    erewrite bind_ok.
    2: { apply validate_submission; [exact Hid | exact Htree | exact Hne |].
         rewrite Hpw. destruct (args_patches args); [contradiction | reflexivity]. }
    cbv beta iota.
    assert (Hsub : submit_new args tree w t
                   = (Ok (if args_no_wait args then None else Some review_id),
                      ([Out ("Reading "
                             ++ Py.str_int (Z.of_nat (length (args_patches args)))
                             ++ " patch file(s)..." ++ Py.nl)]
                         ++ map ReadFile (args_patches args)
                         ++ [Out ("Submitting to " ++ tree ++ "..." ++ Py.nl);
                             Post (api_url (args_url args))
                                  (JObj ([("token", JStr (args_token args));
                                          ("tree", JStr tree)]
                                           ++ [("patches", patches_json (Some texts))]
                                           ++ (if given (args_branch args)
                                               then [("branch",
                                                      JStr (match args_branch args with
                                                            | Some b => b
                                                            | None => ""
                                                            end))]
                                               else [])))]
                         ++ (if args_no_wait args
                             then [Out ("Review ID: " ++ Py.str review_id ++ Py.nl);
                                   Out ("Submission complete (--no-wait specified)"
                                        ++ Py.nl)]
                             else [Out ("Review ID: " ++ Py.str review_id ++ Py.nl);
                                   Out ("Monitoring status (polling every "
                                        ++ Py.str_int (args_poll_interval args)
                                        ++ "s)..." ++ Py.nl ++ Py.nl)]))%list,
                      called t)).
    { unfold submit_new. rewrite Hpw.
      erewrite bind_ok.
      2: { erewrite bind_ok by reflexivity.
           erewrite bind_ok by (apply read_patch_files_readable; exact Hread).
           erewrite bind_ok by reflexivity.
           cbn [result_of events_of tick_of fst snd].
           fold texts.
           rewrite (submit_review_accepted (args_url args) (args_token args) tree
                      (args_branch args) (Some texts) None w t data review_id);
             [| now rewrite Hgiven | exact Hnet | exact Hrid].
           rewrite Hgiven. cbn [result_of events_of tick_of fst snd].
           reflexivity. }
      rewrite after_submission_run.
      cbn [result_of events_of tick_of fst snd].
      f_equal. f_equal.
      rewrite !string_app_assoc. cbn [app]. rewrite <- !app_assoc. reflexivity. }
    erewrite (bind_ok (submit_new args tree)) by exact Hsub.
    cbn [result_of events_of tick_of fst snd app].
    unfold after_submission.
    destruct (args_no_wait args).
    + unfold ret. cbn [result_of events_of tick_of fst snd]. flatten_events.
    + destruct (monitor fuel args review_id w (called t)) as [[r ev] t'].
      cbn [result_of events_of tick_of fst snd]. flatten_events.
Qed.

Lemma submit_patch_files_end_to_end_witness :
  exists payload,
    Py.lookup "patches" payload
    = Some (JList [JStr "diff --git a/f b/f"; JStr "diff --git a/f b/f"]) /\
    Py.lookup "patchwork_series_id" payload = None /\
    main 0 (submit_args None ["a.patch"; "b.patch"]) accepting_service start
    = (Ok tt,
       [Out ("Reading 2 patch file(s)..." ++ Py.nl);
        ReadFile "a.patch"; ReadFile "b.patch";
        Out ("Submitting to netdev/net-next..." ++ Py.nl);
        Post "https://example.com/air/api/review" (JObj payload);
        Out ("Review ID: r-1" ++ Py.nl);
        Out ("Submission complete (--no-wait specified)" ++ Py.nl)],
       called start).
Proof.
  apply (submit_patch_files_end_to_end 0 (submit_args None ["a.patch"; "b.patch"])
           accepting_service start "netdev/net-next"
           [("review_id", JStr "r-1")] (JStr "r-1")).
  - reflexivity.
  - reflexivity.
  - discriminate.
  - reflexivity.
  - discriminate.
  - repeat constructor; now exists "diff --git a/f b/f".
  - reflexivity.
  - reflexivity.
Defined.

(** X16: a submission of a patchwork series, from end to end.  With a
    tree, a non-zero series id and no patch file, the tool opens no file
    and sends one POST with the series id and without [patches]; the
    review id of the reply is printed and is the one the tool then
    monitors, or the run ends there with --no-wait. *)
Theorem submit_series_end_to_end :
  forall (fuel : nat) (args : Args) (w : World) (t : Tick) (tree : string) (z : Z)
         (data : list (string * value)) (review_id : value),
    given (args_review_id args) = false ->
    args_tree args = Some tree ->
    tree <> "" ->
    args_pw_series args = Some z ->
    z <> 0 ->
    args_patches args = [] ->
    net w (calls t) = Body (JObj data) ->
    Py.lookup "review_id" data = Some review_id ->
    exists payload,
      Py.lookup "patchwork_series_id" payload = Some (JInt z) /\
      Py.lookup "patches" payload = None /\
      main fuel args w t
      = after_submission fuel args review_id w (called t)
          [Out ("Submitting patchwork series " ++ Py.str_int z ++ " to " ++ tree
                ++ "..." ++ Py.nl);
           Post (api_url (args_url args)) (JObj payload)].
Proof.
  intros fuel args w t tree z data review_id Hid Htree Hne Hpw Hz Hfiles Hnet Hrid.
  assert (Hgiven : given_int (args_pw_series args) = true).
  { rewrite Hpw. simpl. apply negb_true_iff. now apply Z.eqb_neq. }
  exists ([("token", JStr (args_token args)); ("tree", JStr tree)]
            ++ [("patchwork_series_id", JInt z)]
            ++ (if given (args_branch args)
                then [("branch",
                       JStr (match args_branch args with Some b => b | None => "" end))]
                else []))%list.
  split; [| split].
  - reflexivity.
  - destruct (given (args_branch args)); reflexivity.
  - unfold main.
    erewrite bind_ok.
    2: { apply validate_submission; [exact Hid | exact Htree | exact Hne |].
         rewrite Hgiven, Hfiles. reflexivity. }
    cbv beta iota.
    assert (Hsub : submit_new args tree w t
                   = (Ok (if args_no_wait args then None else Some review_id),
                      ([Out ("Submitting patchwork series " ++ Py.str_int z ++ " to "
                             ++ tree ++ "..." ++ Py.nl);
                        Post (api_url (args_url args))
                             (JObj ([("token", JStr (args_token args));
                                     ("tree", JStr tree)]
                                      ++ [("patchwork_series_id", JInt z)]
                                      ++ (if given (args_branch args)
                                          then [("branch",
                                                 JStr (match args_branch args with
                                                       | Some b => b
                                                       | None => ""
                                                       end))]
                                          else [])))]
                         ++ (if args_no_wait args
                             then [Out ("Review ID: " ++ Py.str review_id ++ Py.nl);
                                   Out ("Submission complete (--no-wait specified)"
                                        ++ Py.nl)]
                             else [Out ("Review ID: " ++ Py.str review_id ++ Py.nl);
                                   Out ("Monitoring status (polling every "
                                        ++ Py.str_int (args_poll_interval args)
                                        ++ "s)..." ++ Py.nl ++ Py.nl)]))%list,
                      called t)).
    { unfold submit_new. rewrite Hgiven.
      erewrite bind_ok.
      2: { erewrite bind_ok by reflexivity.
           cbn [result_of events_of tick_of fst snd].
           rewrite (submit_review_accepted (args_url args) (args_token args) tree
                      (args_branch args) None (args_pw_series args) w t data review_id);
             [| now rewrite Hgiven | exact Hnet | exact Hrid].
           rewrite Hpw. cbn [given_list result_of events_of tick_of fst snd].
           reflexivity. }
      rewrite after_submission_run.
      cbn [result_of events_of tick_of fst snd].
      f_equal. f_equal.
      rewrite !string_app_assoc. cbn [app]. reflexivity. }
    erewrite (bind_ok (submit_new args tree)) by exact Hsub.
    cbn [result_of events_of tick_of fst snd app].
    unfold after_submission.
    destruct (args_no_wait args).
    + unfold ret. cbn [result_of events_of tick_of fst snd]. flatten_events.
    + destruct (monitor fuel args review_id w (called t)) as [[r ev] t'].
      cbn [result_of events_of tick_of fst snd]. flatten_events.
Qed.

Lemma submit_series_end_to_end_witness :
  exists payload,
    Py.lookup "patchwork_series_id" payload = Some (JInt 1026553) /\
    Py.lookup "patches" payload = None /\
    main 3 (submit_args (Some 1026553) []) prompt_service start
    = after_submission 3 (submit_args (Some 1026553) []) (JStr "r-1") prompt_service
        (called start)
        [Out ("Submitting patchwork series 1026553 to netdev/net-next..." ++ Py.nl);
         Post "https://example.com/air/api/review" (JObj payload)].
Proof.
  apply (submit_series_end_to_end 3 (submit_args (Some 1026553) []) prompt_service start
           "netdev/net-next" 1026553 [("review_id", JStr "r-1")] (JStr "r-1")).
  - reflexivity.
  - reflexivity.
  - discriminate.
  - reflexivity.
  - discriminate.
  - reflexivity.
  - reflexivity.
  - reflexivity.
Defined.

(** *** Polling, then the results *)

(** X17: the results are requested once the loop is over, and only then.
    After [k] rounds of waiting and a terminal status, the run continues
    with "Fetching review results..." and one request with the format,
    the [k + 2]-th HTTP call of the monitoring, and ends as that last
    step ends. *)
Theorem monitor_polls_then_fetches :
  forall (args : Args) (review_id : value) (w : World) (t : Tick)
         (k fuel : nat) (state : value),
    args_no_wait args = false ->
    (forall i, (i < k)%nat -> passes w (args_poll_interval args) t i) ->
    answers w (calls t + k) state ->
    terminal state = true ->
    (k < fuel)%nat ->
    exists (pre : list event) (line : string),
      Forall (polling_event args review_id) pre /\
      monitor fuel args review_id w t
      = let x := results_final args review_id w (later t (S k) k) in
        (result_of x,
         (pre ++ [status_request args review_id; Out (Py.cr ++ line); Out Py.nl]
              ++ events_of x)%list,
         tick_of x).
Proof.
  intros args review_id w t k fuel state Hwait Hpass Hans Hterm Hfuel.
  destruct (poll_loop_rounds args review_id w k t 0 Hpass)
    as (pre & len & Hpre & Hio & Hrun).
  destruct (poll_loop_round args review_id w (later t k k) state Hans) as [line Hlast].
  exists pre, (Py.times " " len ++ Py.cr ++ line).
  split; [exact Hpre |].
  replace fuel with (k + S (fuel - S k))%nat by lia.
  unfold monitor. rewrite Hwait.
  erewrite bind_ok.
  2: { unfold poll, except_KeyboardInterrupt.
       rewrite Hrun. cbv zeta. rewrite Hlast, Hterm. cbv zeta.
       cbn. rewrite called_later. reflexivity. }
  cbv zeta. rewrite <- app_assoc. reflexivity.
Qed.

Lemma monitor_polls_then_fetches_witness :
  exists (pre : list event) (line : string),
    Forall (polling_event (polling_args 5) (JStr "abc-123-def")) pre /\
    monitor 3 (polling_args 5) (JStr "abc-123-def") slow_service start
    = let x := results_final (polling_args 5) (JStr "abc-123-def") slow_service
                             (later start 3 2) in
      (result_of x,
       (pre ++ [status_request (polling_args 5) (JStr "abc-123-def");
                Out (Py.cr ++ line); Out Py.nl]
            ++ events_of x)%list,
       tick_of x).
Proof.
  apply (monitor_polls_then_fetches (polling_args 5) (JStr "abc-123-def")
           slow_service start 2 3 (JStr "done")).
  - reflexivity.
  - exact slow_service_passes.
  - exists [("status", JStr "done"); ("patch_count", JInt 2)],
           "Status: done (2 patches reviewed)".
    repeat split.
  - reflexivity.
  - lia.
Defined.
